(** * diagmagic: cell magics driving the blockdiag family of renderers

    A shallow embedding of [extensions/diagmagic.py].  The module keeps four
    module-level globals ([_draw_mode], [_publish_mode],
    [_inkscape_available], [_loaded]); every method of [BlockdiagMagics]
    reads and writes them, touches the file system through [tempfile], [os]
    and [io], starts child processes through [subprocess.call], prints on
    [sys.stdout] / [sys.stderr] and finally hands an image to the host with
    [publish_display_data].

    All of this is modelled by explicit state passing over a [world] record,
    with Python exceptions as the [Raise] branch of a result type.  What lies
    outside the module (child processes, the imported [*.command] modules,
    the names drawn by [tempfile], [pipes.quote], [os.name]) enters as
    section variables, so every theorem holds for all behaviours of these
    collaborators. *)

From Stdlib Require Import ZArith NArith Ascii String List Lia.
From stdpp Require Import base option gmap strings list fin_maps.

Local Open Scope string_scope.
Local Open Scope list_scope.

(** ** Python values *)

(** A Python 2 [str] is a byte string: Rocq's [string].  A [unicode] object is
    a sequence of code points. *)
Definition unicode := list N.

Definition utf8_encode_char (c : N) : list ascii :=
  if (c <? 0x80)%N then [ascii_of_N c]
  else if (c <? 0x800)%N then
    [ascii_of_N (N.lor 0xC0 (N.shiftr c 6));
     ascii_of_N (N.lor 0x80 (N.land c 0x3F))]
  else if (c <? 0x10000)%N then
    [ascii_of_N (N.lor 0xE0 (N.shiftr c 12));
     ascii_of_N (N.lor 0x80 (N.land (N.shiftr c 6) 0x3F));
     ascii_of_N (N.lor 0x80 (N.land c 0x3F))]
  else
    [ascii_of_N (N.lor 0xF0 (N.shiftr c 18));
     ascii_of_N (N.lor 0x80 (N.land (N.shiftr c 12) 0x3F));
     ascii_of_N (N.lor 0x80 (N.land (N.shiftr c 6) 0x3F));
     ascii_of_N (N.lor 0x80 (N.land c 0x3F))].

(** [u.encode('utf-8')] *)
Definition encode_utf8 (u : unicode) : string :=
  string_of_list_ascii (flat_map utf8_encode_char u).

(** [s.lower()] on a byte string: only A-Z are changed. *)
Definition lower_ascii (c : ascii) : ascii :=
  let n := N_of_ascii c in
  if ((65 <=? n) && (n <=? 90))%N then ascii_of_N (n + 32) else c.

Fixpoint lower (s : string) : string :=
  match s with
  | EmptyString => EmptyString
  | String c s' => String (lower_ascii c) (lower s')
  end.

Definition nl : string := String "010"%char EmptyString.

Inductive exn : Type :=
| CalledProcessError (returncode : Z) (cmd : list string) (output : string)
| OSError (strerror : string)
| IOError (strerror : string)
| TypeError (msg : string)
| UnboundLocalError (name : string)
| ImportError (name : string)
| OtherException (name : string).

Inductive result (A : Type) : Type :=
| Ret (a : A)
| Raise (e : exn).
Arguments Ret {A} a.
Arguments Raise {A} e.

Definition result_map {A B} (f : A -> B) (r : result A) : result B :=
  match r with
  | Ret a => Ret (f a)
  | Raise e => Raise e
  end.

(** [fmt % args] for the conversions the module uses ([%s], and [%%]). *)
Fixpoint py_format (fmt : string) (args : list string) : result string :=
  match fmt with
  | EmptyString =>
      match args with
      | [] => Ret EmptyString
      | _ :: _ =>
          Raise (TypeError "not all arguments converted during string formatting")
      end
  | String "%"%char (String "s"%char rest) =>
      match args with
      | a :: args' => result_map (String.append a) (py_format rest args')
      | [] => Raise (TypeError "not enough arguments for format string")
      end
  | String "%"%char (String "%"%char rest) =>
      result_map (String "%"%char) (py_format rest args)
  | String c rest => result_map (String c) (py_format rest args)
  end.

(** The positional arguments the module passes to [publish_display_data]:
    [None], a unicode literal, or a dict from MIME type to bytes. *)
Inductive pyval : Type :=
| PyNone
| PyUnicode (s : string)
| PyDict (items : list (string * string)).

(** ** The world *)

(** The file system as far as the module sees it: the file system maps the
    path of a directory to the regular files in it, a finite map from entry
    names to bytes.  The directory at [d/s] is the subdirectory [s] of the
    directory at [d]. *)
Abbreviation directory := (gmap string string).
Abbreviation filesystem := (gmap string (gmap string string)).

(** A file path [dir + "/" + base]. *)
Record path : Type := { path_dir : string; path_base : string }.

Definition path_str (p : path) : string :=
  path_dir p +:+ "/" +:+ path_base p.

(** [p + suffix] on the string of a path extends its last component. *)
Definition path_add (p : path) (suffix : string) : path :=
  {| path_dir := path_dir p; path_base := path_base p +:+ suffix |}.

(** [startupinfo] as [subprocess.call] receives it. *)
Record STARTUPINFO : Type := { dwFlags : Z }.
Definition STARTF_USESHOWWINDOW : Z := 1.

Record world : Type := {
  _draw_mode : string;
  _publish_mode : string;
  _inkscape_available : option bool;   (* [None], [True] or [False] *)
  _loaded : bool;
  fs : filesystem;
  sys_stdout : list string;            (* lines printed, oldest first *)
  sys_stderr : list string;
  calls : list (list string * option STARTUPINFO);
                                       (* [subprocess.call] invocations *)
  registered : list string;            (* [ip.register_magics] invocations *)
  published : list (pyval * pyval * pyval)
                                       (* [publish_display_data] invocations *)
}.

Definition set_draw_mode (v : string) (w : world) : world :=
  {| _draw_mode := v; _publish_mode := _publish_mode w;
     _inkscape_available := _inkscape_available w; _loaded := _loaded w;
     fs := fs w; sys_stdout := sys_stdout w; sys_stderr := sys_stderr w;
     calls := calls w; registered := registered w; published := published w |}.

Definition set_publish_mode (v : string) (w : world) : world :=
  {| _draw_mode := _draw_mode w; _publish_mode := v;
     _inkscape_available := _inkscape_available w; _loaded := _loaded w;
     fs := fs w; sys_stdout := sys_stdout w; sys_stderr := sys_stderr w;
     calls := calls w; registered := registered w; published := published w |}.

Definition set_inkscape_available (v : option bool) (w : world) : world :=
  {| _draw_mode := _draw_mode w; _publish_mode := _publish_mode w;
     _inkscape_available := v; _loaded := _loaded w;
     fs := fs w; sys_stdout := sys_stdout w; sys_stderr := sys_stderr w;
     calls := calls w; registered := registered w; published := published w |}.

Definition set_loaded (v : bool) (w : world) : world :=
  {| _draw_mode := _draw_mode w; _publish_mode := _publish_mode w;
     _inkscape_available := _inkscape_available w; _loaded := v;
     fs := fs w; sys_stdout := sys_stdout w; sys_stderr := sys_stderr w;
     calls := calls w; registered := registered w; published := published w |}.

Definition set_fs (v : filesystem) (w : world) : world :=
  {| _draw_mode := _draw_mode w; _publish_mode := _publish_mode w;
     _inkscape_available := _inkscape_available w; _loaded := _loaded w;
     fs := v; sys_stdout := sys_stdout w; sys_stderr := sys_stderr w;
     calls := calls w; registered := registered w; published := published w |}.

(** [print(s, file=sys.stdout)] and [print(s, file=sys.stderr)] *)
Definition print_stdout (s : string) (w : world) : world :=
  {| _draw_mode := _draw_mode w; _publish_mode := _publish_mode w;
     _inkscape_available := _inkscape_available w; _loaded := _loaded w;
     fs := fs w; sys_stdout := sys_stdout w ++ [s]; sys_stderr := sys_stderr w;
     calls := calls w; registered := registered w; published := published w |}.

Definition print_stderr (s : string) (w : world) : world :=
  {| _draw_mode := _draw_mode w; _publish_mode := _publish_mode w;
     _inkscape_available := _inkscape_available w; _loaded := _loaded w;
     fs := fs w; sys_stdout := sys_stdout w; sys_stderr := sys_stderr w ++ [s];
     calls := calls w; registered := registered w; published := published w |}.

(** What a call in the process left on the two streams: the lines [out] on
    [sys.stdout] and the lines [err] on [sys.stderr]. *)
Definition emit (out err : list string) (w : world) : world :=
  {| _draw_mode := _draw_mode w; _publish_mode := _publish_mode w;
     _inkscape_available := _inkscape_available w; _loaded := _loaded w;
     fs := fs w; sys_stdout := sys_stdout w ++ out;
     sys_stderr := sys_stderr w ++ err;
     calls := calls w; registered := registered w; published := published w |}.

Definition log_call (c : list string * option STARTUPINFO) (w : world) : world :=
  {| _draw_mode := _draw_mode w; _publish_mode := _publish_mode w;
     _inkscape_available := _inkscape_available w; _loaded := _loaded w;
     fs := fs w; sys_stdout := sys_stdout w; sys_stderr := sys_stderr w;
     calls := calls w ++ [c]; registered := registered w;
     published := published w |}.

(** [ip.register_magics(cls)] *)
Definition register_magics (cls : string) (w : world) : world :=
  {| _draw_mode := _draw_mode w; _publish_mode := _publish_mode w;
     _inkscape_available := _inkscape_available w; _loaded := _loaded w;
     fs := fs w; sys_stdout := sys_stdout w; sys_stderr := sys_stderr w;
     calls := calls w; registered := registered w ++ [cls];
     published := published w |}.

(** [publish_display_data(a, b, c)]: the host's function is not part of the
    module; a call is recorded with its positional arguments in source
    order.  What the host does with the call, and whether it returns from
    it, is not modelled: no statement of the module runs after it. *)
Definition publish_display_data (a b c : pyval) (w : world) : world :=
  {| _draw_mode := _draw_mode w; _publish_mode := _publish_mode w;
     _inkscape_available := _inkscape_available w; _loaded := _loaded w;
     fs := fs w; sys_stdout := sys_stdout w; sys_stderr := sys_stderr w;
     calls := calls w; registered := registered w;
     published := published w ++ [(a, b, c)] |}.

(** The state of a freshly imported module (lines 45-48 and 179), in a
    process whose file system is [fs0]. *)
Definition initial_world (fs0 : filesystem) : world :=
  {| _draw_mode := "PNG"; _publish_mode := "PNG";
     _inkscape_available := None; _loaded := false;
     fs := fs0; sys_stdout := []; sys_stderr := [];
     calls := []; registered := []; published := [] |}.

(** ** Computations: state passing with exceptions *)

Definition M (A : Type) : Type := world -> world * result A.

Definition ret {A} (a : A) : M A := fun w => (w, Ret a).
Definition raise {A} (e : exn) : M A := fun w => (w, Raise e).

Definition bind {A B} (m : M A) (k : A -> M B) : M B := fun w =>
  match m w with
  | (w', Ret a) => k a w'
  | (w', Raise e) => (w', Raise e)
  end.

Declare Scope py_scope.
Delimit Scope py_scope with py.
Notation "x <- m ;; k" := (bind m (fun x => k))
  (at level 100, m at next level, right associativity) : py_scope.
Notation "m ;;; k" := (bind m (fun _ => k))
  (at level 100, right associativity) : py_scope.

(** A statement that only updates the world. *)
Definition modify (f : world -> world) : M unit := fun w => (f w, Ret tt).

(** [try: body finally: cleanup].  The cleanup always runs; an exception
    raised by the cleanup replaces whatever the body produced. *)
Definition try_finally {A} (body : M A) (cleanup : M unit) : M A := fun w =>
  let '(w1, r) := body w in
  match cleanup w1 with
  | (w2, Ret _) => (w2, r)
  | (w2, Raise e) => (w2, Raise e)
  end.

(** [try: body except ...: handler].  The handler sees the exception raised
    by the body; a handler that does not match re-raises it. *)
Definition try_except {A} (body : M A) (handler : exn -> M A) : M A := fun w =>
  match body w with
  | (w1, Ret a) => (w1, Ret a)
  | (w1, Raise e) => handler e w1
  end.

(** Reading the globals. *)
Definition get : M world := fun w => (w, Ret w).

(** A library call that returns a value or raises, without touching the
    world. *)
Definition lift {A} (r : result A) : M A := fun w => (w, r).

(** [for x in l: body] *)
Fixpoint for_each {A} (l : list A) (body : A -> M unit) : M unit :=
  match l with
  | [] => ret tt
  | x :: l' => bind (body x) (fun _ => for_each l' body)
  end.

Local Open Scope py_scope.

(** ** File operations ([tempfile], [os], [io]) *)

Definition is_free {V} (o : option V) : bool :=
  match o with
  | None => true
  | Some _ => false
  end.

(** [s] without the prefix [p], if it starts with [p]. *)
Fixpoint strip_prefix (p s : string) : option string :=
  match p with
  | EmptyString => Some s
  | String a p' =>
      match s with
      | String b s' => if Ascii.eqb a b then strip_prefix p' s' else None
      | EmptyString => None
      end
  end.

Fixpoint has_slash (s : string) : bool :=
  match s with
  | EmptyString => false
  | String c s' => Ascii.eqb c "/"%char || has_slash s'
  end.

(** The name under which the directory at [key] is an entry of the directory
    at [dir]: [s] when [key] is [dir/s] and [s] is a single component. *)
Definition subdir_name (dir key : string) : option string :=
  match strip_prefix (dir +:+ "/") key with
  | Some s => if has_slash s || String.eqb s EmptyString then None else Some s
  | None => None
  end.

(** The subdirectories of [dir]. *)
Definition subdirs (dir : string) (f : filesystem) : list string :=
  omap (subdir_name dir) (fst <$> map_to_list f).

(** Whether nothing exists at [d]: neither the directory nor anything in
    it. *)
Definition unused (d : string) (f : filesystem) : bool :=
  is_free (f !! d) &&
  match subdirs d f with
  | [] => true
  | _ :: _ => false
  end.

(** [tempfile.mkdtemp()]: of the candidate names drawn for this call, the
    first one that is not taken becomes a new, empty directory. *)
Definition mkdtemp (candidates : list string) : M string := fun w =>
  match List.find (fun d => unused d (fs w)) candidates with
  | Some d => (set_fs (<[d := ∅]> (fs w)) w, Ret d)
  | None => (w, Raise (IOError "No usable temporary directory name found"))
  end.

(** [tempfile.mkstemp(dir=dir)]: a new, empty file in [dir]. *)
Definition mkstemp (candidates : list string) (dir : string) : M path := fun w =>
  match fs w !! dir with
  | None => (w, Raise (OSError "No such file or directory"))
  | Some d =>
      match List.find (fun n => is_free (d !! n)) candidates with
      | Some n =>
          (set_fs (<[dir := <[n := EmptyString]> d]> (fs w)) w,
           Ret {| path_dir := dir; path_base := n |})
      | None => (w, Raise (IOError "No usable temporary file name found"))
      end
  end.

(** [f = os.fdopen(fd, "wb"); f.write(data); f.close()] on the descriptor
    [mkstemp] returned for [p]. *)
Definition write_fd (p : path) (data : string) : M unit :=
  modify (fun w =>
    set_fs (alter (fun d => <[path_base p := data]> d) (path_dir p) (fs w)) w).

Definition lookup_file (p : path) (f : filesystem) : option string :=
  match f !! path_dir p with
  | Some d => d !! path_base p
  | None => None
  end.

(** [with io.open(p, 'rb') as f: data = f.read()] *)
Definition read_file (p : path) : M string := fun w =>
  match lookup_file p (fs w) with
  | Some data => (w, Ret data)
  | None => (w, Raise (IOError ("No such file or directory: " +:+ path_str p)))
  end.

(** [os.listdir(dir)]: the regular files and the subdirectories. *)
Definition listdir (dir : string) : M (list string) := fun w =>
  match fs w !! dir with
  | Some d => (w, Ret ((fst <$> map_to_list d) ++ subdirs dir (fs w)))
  | None => (w, Raise (OSError ("No such file or directory: " +:+ dir)))
  end.

(** [os.unlink(dir + "/" + name)]: removes a regular file; on a
    subdirectory, as on a missing entry, it raises [OSError]. *)
Definition unlink (dir name : string) : M unit := fun w =>
  match fs w !! dir with
  | Some d =>
      match d !! name with
      | Some _ => (set_fs (<[dir := delete name d]> (fs w)) w, Ret tt)
      | None =>
          if bool_decide (name ∈ subdirs dir (fs w))
          then (w, Raise (OSError ("Is a directory: " +:+ dir +:+ "/" +:+ name)))
          else (w, Raise (OSError ("No such file or directory: " +:+ dir +:+ "/" +:+ name)))
      end
  | None => (w, Raise (OSError ("No such file or directory: " +:+ dir +:+ "/" +:+ name)))
  end.

(** [os.rmdir(dir)]: only an empty directory can be removed. *)
Definition rmdir (dir : string) : M unit := fun w =>
  match fs w !! dir with
  | Some d =>
      if decide (d = ∅) then
        match subdirs dir (fs w) with
        | [] => (set_fs (delete dir (fs w)) w, Ret tt)
        | _ :: _ => (w, Raise (OSError ("Directory not empty: " +:+ dir)))
        end
      else (w, Raise (OSError ("Directory not empty: " +:+ dir)))
  | None => (w, Raise (OSError ("No such file or directory: " +:+ dir)))
  end.

(** ** [_import_all] (lines 54-57) *)

(** [s.startswith(prefix)] *)
Definition startswith (prefix s : string) : bool := String.prefix prefix s.

(** [self.shell.push(variables)]: the host updates the user namespace with
    the dict it is given, as [dict.update] does. *)
Definition shell_push {V} (variables user_ns : gmap string V) : gmap string V :=
  variables ∪ user_ns.

(** One turn of the loop of lines 55-57, for the item [(k, v)]. *)
Definition import_item {V} (user_ns : gmap string V) (item : string * V)
    : gmap string V :=
  if negb (startswith "__" (fst item))
  then shell_push {[fst item := snd item]} user_ns
  else user_ns.

(** Lines 54-57: the items of [module.__dict__] are pushed one by one.  The
    state is the user namespace of [self.shell]. *)
Definition _import_all {V} (module_dict user_ns : gmap string V)
    : gmap string V :=
  foldl import_item user_ns (map_to_list module_dict).

(** ** Collaborators outside the module *)

(** What [subprocess.call] can do with a well-formed argument list (a
    non-empty list of strings, as at the two call sites of the module): the
    child ran and exited with a return code (having possibly changed
    files), or it could not be started, which [subprocess] reports as
    [OSError].  [subprocess.call] never raises [CalledProcessError]; only
    [check_call] and [check_output] do. *)
Inductive call_outcome : Type :=
| Exited (returncode : Z) (fs_after : filesystem)
| NotStarted (strerror : string).

(** An imported [*.command] module: [main(argv)] runs in-process on the file
    system, and returns or raises; [main_prints] is what it prints meanwhile,
    on [sys.stdout] and on [sys.stderr]. *)
Record command_module : Type := {
  main : world -> list string -> filesystem * option exn;
  main_prints : world -> list string -> list string * list string
}.

(** ** A concrete process, for the examples *)

(** [os.path.split]: the directory and the last component of a path. *)
Fixpoint split_path (s : string) : option (string * string) :=
  match s with
  | EmptyString => None
  | String c s' =>
      match split_path s' with
      | Some (d, b) => Some (String c d, b)
      | None => if Ascii.eqb c "/"%char then Some (EmptyString, s') else None
      end
  end.

Fixpoint drop_string (n : nat) (s : string) : string :=
  match n, s with
  | O, _ => s
  | S n', String _ s' => drop_string n' s'
  | S _, EmptyString => EmptyString
  end.

Definition write_path (name data : string) (f : filesystem) : filesystem :=
  match split_path name with
  | Some (d, b) => alter (fun entries => <[b := data]> entries) d f
  | None => f
  end.

(** A renderer that writes an image to the path after [-o] and returns. *)
Definition demo_renderer : command_module :=
  {| main := fun w argv =>
       match argv with
       | _ :: _ :: _ :: _ :: out :: _ => (write_path out "image" (fs w), None)
       | _ => (fs w, Some (OtherException "SystemExit"))
       end;
     main_prints := fun w argv => ([], []) |}.

(** A renderer that returns without writing its output file. *)
Definition silent_renderer : command_module :=
  {| main := fun w argv => (fs w, None);
     main_prints := fun w argv => ([], []) |}.

(** An installed inkscape: the probe exits with 0, a conversion writes the
    file named by [--export-png=]. *)
Definition inkscape_present (w : world) (args : list string) : call_outcome :=
  match args with
  | [_; _; flag] => Exited 0 (write_path (drop_string 13 flag) "png" (fs w))
  | _ => Exited 0 (fs w)
  end.

(** An inkscape that starts and exits with return code 1. *)
Definition inkscape_failing (w : world) (args : list string) : call_outcome :=
  Exited 1 (fs w).

(** No inkscape on the path. *)
Definition inkscape_missing (w : world) (args : list string) : call_outcome :=
  NotStarted "[Errno 2] No such file or directory".

Definition demo_tmp_dirs (w : world) : list string := ["/tmp/tmpAAAAAA"].
Definition demo_tmp_files (w : world) : list string := ["tmpBBBBBB"].

(** A unicode object from an ASCII literal. *)
Definition unicode_of_string (s : string) : unicode :=
  map N_of_ascii (list_ascii_of_string s).

Definition demo_cell : unicode := unicode_of_string "{ A -> B; }".



(** A renderer that returns when its second argument is [-T] and raises
    otherwise. *)
Definition picky_renderer : command_module :=
  {| main := fun w argv =>
       match argv with
       | _ :: "-T" :: _ => (fs w, None)
       | _ => (fs w, Some (OtherException "SystemExit"))
       end;
     main_prints := fun w argv => ([], []) |}.


Section BlockdiagMagics.

(** [os.name] *)
Variable os_name : string.
(** [pipes.quote] *)
Variable pipes_quote : string -> string.
(** The operating system's answer to starting a child with [args]. *)
Variable child : world -> list string -> call_outcome.
(** The names [tempfile] draws for a directory and for a file. *)
Variable tmp_dir_names : world -> list string.
Variable tmp_file_names : world -> list string.
(** The outcome of [import actdiag.command] and its siblings. *)
Variable actdiag_command : result command_module.
Variable blockdiag_command : result command_module.
Variable nwdiag_command : result command_module.
Variable seqdiag_command : result command_module.

(** [subprocess.call(args, stderr=subprocess.STDOUT, startupinfo=...)]:
    returns the child's return code. *)
Definition subprocess_call (args : list string)
    (startupinfo : option STARTUPINFO) : M Z := fun w =>
  let w1 := log_call (args, startupinfo) w in
  match child w args with
  | Exited rc fs' => (set_fs fs' w1, Ret rc)
  | NotStarted msg => (w1, Raise (OSError msg))
  end.

(** [command.main(argv)] *)
Definition command_main (command : command_module) (argv : list string)
    : M unit := fun w =>
  let '(out, err) := main_prints command w argv in
  match main command w argv with
  | (fs', None) => (emit out err (set_fs fs' w), Ret tt)
  | (fs', Some e) => (emit out err (set_fs fs' w), Raise e)
  end.

(** Lines 59-77.  [return True] sits inside the [try]; [return False]
    follows the [try] statement and is reached from a handler that ran to
    its end. *)
Definition run_command (args : list string) : M bool :=
  try_except
    (let startupinfo :=
       if String.eqb os_name "nt"
       then Some {| dwFlags := Z.lor 0 STARTF_USESHOWWINDOW |}
       else None in
     _ <- subprocess_call args startupinfo ;;
     ret true)
    (fun e =>
       match e with
       | CalledProcessError _ cmd output =>
           modify (print_stderr output) ;;;
           s <- lift (py_format ("ERROR: command `%s` failed" +:+ nl +:+ "%s")
                        [String.concat " " (map pipes_quote cmd)]) ;;
           modify (print_stderr s) ;;;
           ret false
       | OSError strerror =>
           s <- lift (py_format "Exception %s" [strerror]) ;;
           modify (print_stdout s) ;;;
           ret false
       | _ => raise e
       end).

(** Lines 79-83. *)
Definition inkscape_available : M bool :=
  w <- get ;;
  match _inkscape_available w with
  | None =>
      b <- run_command ["inkscape"; "--export-png"] ;;
      modify (set_inkscape_available (Some b)) ;;;
      ret b
  | Some b => ret b
  end.

(** Lines 85-87. *)
Definition svg2png (filename : path) : M unit :=
  _ <- run_command ["inkscape"; path_str filename +:+ ".svg";
                    "--export-png=" +:+ path_str filename +:+ ".png"] ;;
  ret tt.

(** Lines 92-95. *)
Definition diag_prelude : M unit :=
  available <- inkscape_available ;;
  if available then modify (set_draw_mode "SVG") else ret tt.

(** Lines 99-128: the body of the [try], from the point where [tmpdir] is
    bound. *)
Definition diag_body (tmpdir : string) (code : unicode)
    (command : command_module) : M string :=
  w0 <- get ;;
  diag_name <- mkstemp (tmp_file_names w0) tmpdir ;;
  write_fd diag_name (encode_utf8 code) ;;;
  w1 <- get ;;
  let format := lower (_draw_mode w1) in
  let draw_name := path_add diag_name ("." +:+ format) in
  let argv := [path_str diag_name; "-T"; format; "-o"; path_str draw_name] in
  let argv := if String.eqb (_draw_mode w1) "SVG" then argv ++ [""] else argv in
  command_main command argv ;;;
  w2 <- get ;;
  (if String.eqb (_draw_mode w2) "SVG" && String.eqb (_publish_mode w2) "PNG"
   then svg2png diag_name
   else ret tt) ;;;
  w3 <- get ;;
  let file_name := path_add diag_name ("." +:+ lower (_publish_mode w3)) in
  read_file file_name.

(** Lines 130-133: the [finally] clause. *)
Definition diag_cleanup (tmpdir : string) : M unit :=
  files <- listdir tmpdir ;;
  for_each files (fun file => unlink tmpdir file) ;;;
  rmdir tmpdir.

(** Lines 97-133: the [try ... finally] statement.  When [mkdtemp] raises,
    [tmpdir] is still unbound when the [finally] clause reads it. *)
Definition diag_try (code : unicode) (command : command_module) : M string :=
  fun w =>
    match mkdtemp (tmp_dir_names w) w with
    | (w1, Ret tmpdir) =>
        try_finally (diag_body tmpdir code command) (diag_cleanup tmpdir) w1
    | (w1, Raise _) => (w1, Raise (UnboundLocalError "tmpdir"))
    end.

(** Lines 135-146. *)
Definition diag_publish (data : string) : M unit :=
  w <- get ;;
  if String.eqb (_publish_mode w) "SVG" then
    modify (publish_display_data
              (PyUnicode "IPython.core.displaypub.publish_svg")
              PyNone
              (PyDict [("image/svg+xml", data)]))
  else
    modify (publish_display_data
              (PyDict [("image/png", data)])
              PyNone
              (PyUnicode "IPython.core.displaypub.publish_png")).

(** Lines 89-146. *)
Definition diag (line cell : unicode) (command : command_module) : M unit :=
  let code := cell ++ [10%N] in
  diag_prelude ;;;
  data <- diag_try code command ;;
  diag_publish data.

(** Lines 148-166. *)
Definition actdiag (line cell : unicode) : M unit :=
  command <- lift actdiag_command ;; diag line cell command.

Definition blockdiag (line cell : unicode) : M unit :=
  command <- lift blockdiag_command ;; diag line cell command.

Definition nwdiag (line cell : unicode) : M unit :=
  command <- lift nwdiag_command ;; diag line cell command.

Definition seqdiag (line cell : unicode) : M unit :=
  command <- lift seqdiag_command ;; diag line cell command.

(** Lines 168-176.  A chained assignment assigns left to right. *)
Definition setdiagsvg (line : unicode) (cell : option unicode) : M unit :=
  modify (set_draw_mode "SVG") ;;; modify (set_publish_mode "SVG").

Definition setdiagpng (line : unicode) (cell : option unicode) : M unit :=
  modify (set_draw_mode "PNG") ;;; modify (set_publish_mode "PNG").

(** Lines 181-186. *)
Definition load_ipython_extension : M unit :=
  w <- get ;;
  if negb (_loaded w)
  then modify (register_magics "BlockdiagMagics") ;;;
       modify (set_loaded true)
  else ret tt.

(** ** Whatever the host asks of the extension during one process *)

Inductive operation : Type :=
| Load
| Actdiag (line cell : unicode)
| Blockdiag (line cell : unicode)
| Nwdiag (line cell : unicode)
| Seqdiag (line cell : unicode)
| Setdiagsvg (line : unicode) (cell : option unicode)
| Setdiagpng (line : unicode) (cell : option unicode).

Definition perform (op : operation) : M unit :=
  match op with
  | Load => load_ipython_extension
  | Actdiag line cell => actdiag line cell
  | Blockdiag line cell => blockdiag line cell
  | Nwdiag line cell => nwdiag line cell
  | Seqdiag line cell => seqdiag line cell
  | Setdiagsvg line cell => setdiagsvg line cell
  | Setdiagpng line cell => setdiagpng line cell
  end.

(** The world after a sequence of operations; an operation that raised
    leaves the world as it was when the exception left the extension. *)
Definition run_all (ops : list operation) (w : world) : world :=
  fold_left (fun w op => fst (perform op w)) ops w.

(** ** Vocabulary of the properties *)

(** The [startupinfo] argument [run_command] builds. *)
Definition run_command_startupinfo : option STARTUPINFO :=
  if String.eqb os_name "nt"
  then Some {| dwFlags := Z.lor 0 STARTF_USESHOWWINDOW |}
  else None.

(** The arguments of the availability probe (line 82). *)
Definition probe_args : list string := ["inkscape"; "--export-png"].

(** The two legal values of a format flag. *)
Definition legal_mode (s : string) : Prop := s = "PNG" \/ s = "SVG".

(** The MIME type that goes with a publish mode (lines 135-146). *)
Definition mime_type (mode : string) : string :=
  if String.eqb mode "SVG" then "image/svg+xml" else "image/png".



(** The call [svg2png] makes for [filename] (lines 86-87). *)
Definition convert_call (filename : path) : list string * option STARTUPINFO :=
  (["inkscape"; path_str filename +:+ ".svg";
    "--export-png=" +:+ path_str filename +:+ ".png"],
   run_command_startupinfo).

Definition is_load (op : operation) : bool :=
  match op with
  | Load => true
  | _ => false
  end.

(** [m] leaves the part [proj] of the world as it found it, whether it
    returns or raises. *)
Definition preserves {X A} (proj : world -> X) (m : M A) : Prop :=
  forall w, proj (fst (m w)) = proj w.

(** Parts of the world that do not depend on the file system; parts that
    the renderer cannot reach either (they do not depend on what is
    printed); and parts that depend neither on these nor on the call
    log. *)
Definition fs_blind {X} (proj : world -> X) : Prop :=
  forall v w, proj (set_fs v w) = proj w.

Definition tool_blind {X} (proj : world -> X) : Prop :=
  fs_blind proj /\
  (forall out err w, proj (emit out err w) = proj w).

Definition pub_blind {X} (proj : world -> X) : Prop :=
  forall a b c w, proj (publish_display_data a b c w) = proj w.

Definition io_blind {X} (proj : world -> X) : Prop :=
  tool_blind proj /\
  (forall s w, proj (print_stdout s w) = proj w) /\
  (forall s w, proj (print_stderr s w) = proj w) /\
  (forall c w, proj (log_call c w) = proj w).

(** The registration state: the class has been handed to the host exactly
    when [_loaded] is set. *)
Definition load_inv (b : bool) (w : world) : Prop :=
  _loaded w = b /\ registered w = if b then ["BlockdiagMagics"] else [].


Definition flags_legal (w : world) : Prop :=
  legal_mode (_draw_mode w) /\ legal_mode (_publish_mode w).

(** What is left of a directory after unlinking the names of [l] one by
    one. *)
Definition unlink_all (l : list string) (d : gmap string string)
    : gmap string string :=
  foldl (fun d n => delete n d) d l.

(** The test of line 121. *)
Definition wants_conversion (w : world) : bool :=
  String.eqb (_draw_mode w) "SVG" && String.eqb (_publish_mode w) "PNG".

(** The call of [publish_display_data] that lines 135-146 make for [data]
    in publish mode [mode], positional arguments in source order. *)
Definition display_call (mode data : string) : pyval * pyval * pyval :=
  if String.eqb mode "SVG" then
    (PyUnicode "IPython.core.displaypub.publish_svg", PyNone,
     PyDict [(mime_type mode, data)])
  else
    (PyDict [(mime_type mode, data)], PyNone,
     PyUnicode "IPython.core.displaypub.publish_png").

(** The file [diag] reads back (line 125). *)
Definition output_file (diag_name : path) (w : world) : path :=
  path_add diag_name ("." +:+ lower (_publish_mode w)).

(** The part of the world the conversion test and the call log live in. *)
Definition render_view (w : world) :=
  (calls w, _draw_mode w, _publish_mode w, published w).

(** Whether a positional argument is a dict. *)
Definition is_mapping (v : pyval) : bool :=
  match v with
  | PyDict _ => true
  | _ => false
  end.

(** The [try] body and the [except] clauses of [run_command] (lines 61-68
    and 69-76), named apart. *)
Definition run_command_body (args : list string) : M bool :=
  let startupinfo :=
    if String.eqb os_name "nt"
    then Some {| dwFlags := Z.lor 0 STARTF_USESHOWWINDOW |}
    else None in
  _ <- subprocess_call args startupinfo ;;
  ret true.

Definition run_command_handler (e : exn) : M bool :=
  match e with
  | CalledProcessError _ cmd output =>
      modify (print_stderr output) ;;;
      s <- lift (py_format ("ERROR: command `%s` failed" +:+ nl +:+ "%s")
                   [String.concat " " (map pipes_quote cmd)]) ;;
      modify (print_stderr s) ;;;
      ret false
  | OSError strerror =>
      s <- lift (py_format "Exception %s" [strerror]) ;;
      modify (print_stdout s) ;;;
      ret false
  | _ => raise e
  end.

(** The argument vector of line 108 (and 116), as strings. *)
Definition render_argv (diag_name : path) (mode : string) : list string :=
  [path_str diag_name; "-T"; lower mode; "-o";
   path_str diag_name +:+ "." +:+ lower mode] ++
  (if String.eqb mode "SVG" then [""] else []).


(** Every child the module has started is an inkscape, started with the
    [startupinfo] of lines 61-65. *)
Definition only_inkscape (w : world) : Prop :=
  Forall (fun c => (exists rest, fst c = "inkscape" :: rest) /\
                   snd c = run_command_startupinfo) (calls w).

(** The three combinations of draw mode and publish mode a process can be
    in. *)
Definition flags_reachable (w : world) : Prop :=
  (_draw_mode w = "PNG" /\ _publish_mode w = "PNG") \/
  (_draw_mode w = "SVG" /\ _publish_mode w = "SVG") \/
  (_draw_mode w = "SVG" /\ _publish_mode w = "PNG").

(** Lines 121-128: what the [try] body does once the renderer has
    returned. *)
Definition diag_after_render (diag_name : path) : M string :=
  w2 <- get ;;
  (if wants_conversion w2 then svg2png diag_name else ret tt) ;;;
  w3 <- get ;;
  read_file (output_file diag_name w3).

(** * Properties *)

(** ** Frame reasoning: what a computation leaves alone *)

Lemma preserves_ret {X A} (proj : world -> X) (a : A) : preserves proj (ret a).
Proof. intros w. reflexivity. Qed.

Lemma preserves_raise {X A} (proj : world -> X) e : preserves proj (@raise A e).
Proof. intros w. reflexivity. Qed.

Lemma preserves_lift {X A} (proj : world -> X) (r : result A) :
  preserves proj (lift r).
Proof. intros w. reflexivity. Qed.

Lemma preserves_get {X} (proj : world -> X) : preserves proj get.
Proof. intros w. reflexivity. Qed.

Lemma preserves_modify {X} (proj : world -> X) f :
  (forall w, proj (f w) = proj w) -> preserves proj (modify f).
Proof. intros Hf w. apply Hf. Qed.

Lemma preserves_bind {X A B} (proj : world -> X) (m : M A) (k : A -> M B) :
  preserves proj m -> (forall a, preserves proj (k a)) ->
  preserves proj (bind m k).
Proof.
  intros Hm Hk w. unfold bind. specialize (Hm w).
  destruct (m w) as [w1 [a|e]]; simpl in *.
  - rewrite Hk. exact Hm.
  - exact Hm.
Qed.

Lemma preserves_try_finally {X A} (proj : world -> X) (body : M A) cleanup :
  preserves proj body -> preserves proj cleanup ->
  preserves proj (try_finally body cleanup).
Proof.
  intros Hb Hc w. unfold try_finally. specialize (Hb w).
  destruct (body w) as [w1 r]. specialize (Hc w1).
  destruct (cleanup w1) as [w2 [u|e]]; simpl in *; congruence.
Qed.

Lemma preserves_try_except {X A} (proj : world -> X) (body : M A) handler :
  preserves proj body -> (forall e, preserves proj (handler e)) ->
  preserves proj (try_except body handler).
Proof.
  intros Hb Hh w. unfold try_except. specialize (Hb w).
  destruct (body w) as [w1 [a|e]]; simpl in *.
  - exact Hb.
  - rewrite Hh. exact Hb.
Qed.

Lemma preserves_for_each {X A} (proj : world -> X) (l : list A) body :
  (forall x, preserves proj (body x)) -> preserves proj (for_each l body).
Proof.
  intros Hb. induction l as [|x l IH]; simpl.
  - apply preserves_ret.
  - apply preserves_bind; auto.
Qed.

Lemma preserves_if {X A} (proj : world -> X) (b : bool) (m1 m2 : M A) :
  preserves proj m1 -> preserves proj m2 ->
  preserves proj (if b then m1 else m2).
Proof. destruct b; auto. Qed.

(** The file operations change nothing but the file system. *)
Lemma preserves_mkdtemp {X} (proj : world -> X) candidates :
  fs_blind proj -> preserves proj (mkdtemp candidates).
Proof.
  intros Hp w. unfold mkdtemp.
  destruct (find _ candidates); simpl; [apply Hp | reflexivity].
Qed.

Lemma preserves_mkstemp {X} (proj : world -> X) candidates dir :
  fs_blind proj -> preserves proj (mkstemp candidates dir).
Proof.
  intros Hp w. unfold mkstemp.
  destruct (fs w !! dir); [|reflexivity].
  destruct (find _ candidates); simpl; [apply Hp | reflexivity].
Qed.

Lemma preserves_write_fd {X} (proj : world -> X) p data :
  fs_blind proj -> preserves proj (write_fd p data).
Proof. intros Hp w. apply Hp. Qed.

Lemma preserves_read_file {X} (proj : world -> X) p :
  preserves proj (read_file p).
Proof. intros w. unfold read_file. destruct (lookup_file p (fs w)); reflexivity. Qed.

Lemma preserves_listdir {X} (proj : world -> X) dir :
  preserves proj (listdir dir).
Proof. intros w. unfold listdir. destruct (fs w !! dir); reflexivity. Qed.

Lemma preserves_unlink {X} (proj : world -> X) dir name :
  fs_blind proj -> preserves proj (unlink dir name).
Proof.
  intros Hp w. unfold unlink.
  destruct (fs w !! dir) as [d|]; [|reflexivity].
  destruct (d !! name); simpl; [apply Hp|].
  by destruct (bool_decide _).
Qed.

Lemma preserves_rmdir {X} (proj : world -> X) dir :
  fs_blind proj -> preserves proj (rmdir dir).
Proof.
  intros Hp w. unfold rmdir.
  destruct (fs w !! dir) as [d|]; [|reflexivity].
  destruct (decide (d = ∅)); simpl; [|reflexivity].
  destruct (subdirs dir (fs w)); simpl; [apply Hp | reflexivity].
Qed.

Lemma preserves_command_main {X} (proj : world -> X) command argv :
  tool_blind proj -> preserves proj (command_main command argv).
Proof.
  intros [Hp He] w. unfold command_main.
  destruct (main_prints command w argv) as [out err].
  destruct (main command w argv) as [v [e|]]; simpl; by rewrite He, Hp.
Qed.

(** [command.main(argv)] in closed form. *)
Lemma command_main_spec command argv w :
  command_main command argv w =
    (emit (fst (main_prints command w argv)) (snd (main_prints command w argv))
       (set_fs (fst (main command w argv)) w),
     match snd (main command w argv) with
     | None => Ret tt
     | Some e => Raise e
     end).
Proof.
  unfold command_main. destruct (main_prints command w argv) as [out err].
  by destruct (main command w argv) as [v [e|]].
Qed.

Lemma preserves_diag_cleanup {X} (proj : world -> X) tmpdir :
  fs_blind proj -> preserves proj (diag_cleanup tmpdir).
Proof.
  intros Hp. unfold diag_cleanup.
  apply preserves_bind; [apply preserves_listdir|]. intros files.
  apply preserves_bind; [|intros; by apply preserves_rmdir].
  apply preserves_for_each. intros; by apply preserves_unlink.
Qed.

(** ** [run_command] *)

Lemma append_empty_r (s : string) : s +:+ "" = s.
Proof.
  induction s as [|c s IH]; [reflexivity|].
  change (String c (s +:+ "") = String c s). by rewrite IH.
Qed.

(** [run_command] in closed form: one logged call; [True] whenever the
    child was started, whatever its return code; a line on [sys.stdout] and
    [False] when it could not be started.  No exception leaves it. *)
Lemma run_command_spec args w :
  run_command args w =
    match child w args with
    | Exited rc fs' =>
        (set_fs fs' (log_call (args, run_command_startupinfo) w), Ret true)
    | NotStarted strerror =>
        (print_stdout ("Exception " +:+ strerror)
           (log_call (args, run_command_startupinfo) w), Ret false)
    end.
Proof.
  unfold run_command, try_except, bind, subprocess_call, run_command_startupinfo.
  destruct (child w args) as [rc fs'|strerror]; simpl; [reflexivity|].
  unfold bind, lift, modify, ret; simpl. rewrite append_empty_r. reflexivity.
Qed.

Lemma run_command_returns args w :
  exists b, snd (run_command args w) = Ret b.
Proof.
  rewrite run_command_spec. destruct (child w args); simpl; eauto.
Qed.

Lemma preserves_run_command {X} (proj : world -> X) args :
  io_blind proj -> preserves proj (run_command args).
Proof.
  intros ([Hfs _] & Hout & Herr & Hlog) w. rewrite run_command_spec.
  destruct (child w args); simpl.
  - by rewrite Hfs, Hlog.
  - by rewrite Hout, Hlog.
Qed.

Lemma preserves_svg2png {X} (proj : world -> X) filename :
  io_blind proj -> preserves proj (svg2png filename).
Proof.
  intros Hp. unfold svg2png.
  apply preserves_bind; [by apply preserves_run_command | intros; apply preserves_ret].
Qed.

(** ** [inkscape_available] *)

Lemma inkscape_available_cached w b :
  _inkscape_available w = Some b -> inkscape_available w = (w, Ret b).
Proof. intros H. unfold inkscape_available, bind, get. by rewrite H. Qed.

Lemma inkscape_available_probe w :
  _inkscape_available w = None ->
  inkscape_available w =
    match child w probe_args with
    | Exited rc fs' =>
        (set_inkscape_available (Some true)
           (set_fs fs' (log_call (probe_args, run_command_startupinfo) w)),
         Ret true)
    | NotStarted strerror =>
        (set_inkscape_available (Some false)
           (print_stdout ("Exception " +:+ strerror)
              (log_call (probe_args, run_command_startupinfo) w)),
         Ret false)
    end.
Proof.
  intros H. unfold inkscape_available, bind, get. rewrite H.
  fold probe_args. rewrite run_command_spec.
  by destruct (child w probe_args).
Qed.

Lemma inkscape_available_returns w :
  exists b, snd (inkscape_available w) = Ret b.
Proof.
  destruct (_inkscape_available w) as [b|] eqn:H.
  - rewrite (inkscape_available_cached _ _ H). eauto.
  - rewrite (inkscape_available_probe _ H).
    destruct (child w probe_args); simpl; eauto.
Qed.

Lemma preserves_inkscape_available {X} (proj : world -> X) :
  io_blind proj ->
  (forall v w, proj (set_inkscape_available v w) = proj w) ->
  preserves proj inkscape_available.
Proof.
  intros Hio Hset. unfold inkscape_available.
  apply preserves_bind; [apply preserves_get|]. intros w0.
  destruct (_inkscape_available w0); [apply preserves_ret|].
  apply preserves_bind; [by apply preserves_run_command|]. intros b.
  apply preserves_bind; [by apply preserves_modify | intros; apply preserves_ret].
Qed.

(** ** [diag]: the parts after the probe *)

Lemma preserves_diag_body {X} (proj : world -> X) tmpdir code command :
  fs_blind proj ->
  (forall argv, preserves proj (command_main command argv)) ->
  (forall filename, preserves proj (svg2png filename)) ->
  preserves proj (diag_body tmpdir code command).
Proof.
  intros Hfs Hmain Hsvg. unfold diag_body.
  apply preserves_bind; [apply preserves_get|]. intros w0.
  apply preserves_bind; [by apply preserves_mkstemp|]. intros diag_name.
  apply preserves_bind; [by apply preserves_write_fd|]. intros _.
  apply preserves_bind; [apply preserves_get|]. intros w1.
  apply preserves_bind; [apply Hmain|]. intros _.
  apply preserves_bind; [apply preserves_get|]. intros w2.
  apply preserves_bind; [apply preserves_if; [apply Hsvg | apply preserves_ret]|].
  intros _.
  apply preserves_bind; [apply preserves_get|]. intros w3.
  apply preserves_read_file.
Qed.

Lemma preserves_diag_try {X} (proj : world -> X) code command :
  fs_blind proj ->
  (forall argv, preserves proj (command_main command argv)) ->
  (forall filename, preserves proj (svg2png filename)) ->
  preserves proj (diag_try code command).
Proof.
  intros Hfs Hmain Hsvg w. unfold diag_try.
  pose proof (preserves_mkdtemp proj (tmp_dir_names w) Hfs w) as Hmk.
  destruct (mkdtemp (tmp_dir_names w) w) as [w1 [tmpdir|e]]; simpl in *;
    [|exact Hmk].
  rewrite <- Hmk. apply preserves_try_finally.
  - by apply preserves_diag_body.
  - by apply preserves_diag_cleanup.
Qed.

Lemma preserves_diag_publish {X} (proj : world -> X) data :
  pub_blind proj -> preserves proj (diag_publish data).
Proof.
  intros Hp. unfold diag_publish.
  apply preserves_bind; [apply preserves_get|]. intros w0.
  destruct (String.eqb _ _); apply preserves_modify; intros; apply Hp.
Qed.

(** Everything [diag] does after lines 92-95. *)
Lemma preserves_diag_render {X} (proj : world -> X) code command :
  fs_blind proj -> pub_blind proj ->
  (forall argv, preserves proj (command_main command argv)) ->
  (forall filename, preserves proj (svg2png filename)) ->
  preserves proj (data <- diag_try code command ;; diag_publish data).
Proof.
  intros Hfs Hpub Hmain Hsvg.
  apply preserves_bind; [by apply preserves_diag_try|].
  intros; by apply preserves_diag_publish.
Qed.

(** The same for a part of the world that the renderer cannot reach. *)
Lemma preserves_diag_render_blind {X} (proj : world -> X) code command :
  tool_blind proj -> pub_blind proj ->
  (forall filename, preserves proj (svg2png filename)) ->
  preserves proj (data <- diag_try code command ;; diag_publish data).
Proof.
  intros Htool Hpub Hsvg. apply preserves_diag_render; try done.
  - apply Htool.
  - intros argv. by apply preserves_command_main.
Qed.

(** A part of the world that only the module's own assignments can change:
    [diag] leaves it alone when the probe and the assignment of line 95
    do. *)
Lemma preserves_diag {X} (proj : world -> X) line cell command :
  io_blind proj -> pub_blind proj ->
  (forall v w, proj (set_inkscape_available v w) = proj w) ->
  (forall v w, proj (set_draw_mode v w) = proj w) ->
  preserves proj (diag line cell command).
Proof.
  intros Hio Hpub Hia Hdm. unfold diag.
  apply preserves_bind.
  - unfold diag_prelude.
    apply preserves_bind; [by apply preserves_inkscape_available|].
    intros b. apply preserves_if; [by apply preserves_modify | apply preserves_ret].
  - intros _. apply preserves_diag_render_blind; [apply Hio | done |].
    intros; by apply preserves_svg2png.
Qed.

(** ** The toggle commands and the registration hook *)

Lemma setdiagsvg_spec line cell w :
  setdiagsvg line cell w = (set_publish_mode "SVG" (set_draw_mode "SVG" w), Ret tt).
Proof. reflexivity. Qed.

Lemma setdiagpng_spec line cell w :
  setdiagpng line cell w = (set_publish_mode "PNG" (set_draw_mode "PNG" w), Ret tt).
Proof. reflexivity. Qed.

(** C5: [setdiagsvg] followed by [setdiagpng] leaves both the draw-mode flag
    and the publish-mode flag equal to ['PNG'], from every state and for all
    arguments of the two commands. *)
Theorem setdiagsvg_then_setdiagpng line1 cell1 line2 cell2 w :
  let w' := fst ((setdiagsvg line1 cell1 ;;; setdiagpng line2 cell2) w) in
  _draw_mode w' = "PNG" /\ _publish_mode w' = "PNG".
Proof. split; reflexivity. Qed.

Lemma load_ipython_extension_first w :
  _loaded w = false ->
  load_ipython_extension w =
    (set_loaded true (register_magics "BlockdiagMagics" w), Ret tt).
Proof. intros H. unfold load_ipython_extension, bind, get. by rewrite H. Qed.

Lemma load_ipython_extension_again w :
  _loaded w = true -> load_ipython_extension w = (w, Ret tt).
Proof. intros H. unfold load_ipython_extension, bind, get. by rewrite H. Qed.

Lemma preserves_load_ipython_extension {X} (proj : world -> X) :
  (forall c w, proj (register_magics c w) = proj w) ->
  (forall v w, proj (set_loaded v w) = proj w) ->
  preserves proj load_ipython_extension.
Proof.
  intros Hr Hl w. destruct (_loaded w) eqn:H.
  - by rewrite load_ipython_extension_again.
  - rewrite load_ipython_extension_first by done. simpl. by rewrite Hl, Hr.
Qed.

(** Parts of the world that no operation other than [op] itself can reach:
    a cell magic preserves what [diag] preserves. *)
Lemma preserves_perform_magics {X} (proj : world -> X) op :
  io_blind proj -> pub_blind proj ->
  (forall v w, proj (set_inkscape_available v w) = proj w) ->
  (forall v w, proj (set_draw_mode v w) = proj w) ->
  match op with
  | Load | Setdiagsvg _ _ | Setdiagpng _ _ => True
  | _ => preserves proj (perform op)
  end.
Proof.
  intros Hio Hpub Hia Hdm.
  destruct op; simpl; try exact I;
    (apply preserves_bind; [apply preserves_lift|]);
    intros; by apply preserves_diag.
Qed.

(** ** Registration *)

Lemma perform_not_load {X} (proj : world -> X) op :
  io_blind proj -> pub_blind proj ->
  (forall v w, proj (set_inkscape_available v w) = proj w) ->
  (forall v w, proj (set_draw_mode v w) = proj w) ->
  (forall v w, proj (set_publish_mode v w) = proj w) ->
  is_load op = false -> preserves proj (perform op).
Proof.
  intros Hio Hpub Hia Hdm Hpm Hop.
  pose proof (preserves_perform_magics proj op Hio Hpub Hia Hdm) as Hmag.
  destruct op; try discriminate; try exact Hmag;
    intros w; simpl; by rewrite Hpm, Hdm.
Qed.

Lemma perform_load_inv b op w :
  load_inv b w -> load_inv (b || is_load op) (fst (perform op w)).
Proof.
  intros [Hl Hr]. destruct (is_load op) eqn:Hop.
  - destruct op; try discriminate. simpl. destruct b.
    + rewrite load_ipython_extension_again by done. by split.
    + rewrite load_ipython_extension_first by done. split; simpl; [done|].
      by rewrite Hr.
  - rewrite orb_false_r.
    pose proof (perform_not_load (fun w => (_loaded w, registered w)) op) as Hp.
    specialize (Hp ltac:(by repeat split) ltac:(by intros ????)
                   ltac:(done) ltac:(done) ltac:(done) Hop w).
    simpl in Hp. injection Hp as Hl' Hr'. split; congruence.
Qed.

Lemma run_all_load_inv ops : forall b w,
  load_inv b w -> load_inv (b || existsb is_load ops) (run_all ops w).
Proof.
  induction ops as [|op ops IH]; intros b w H; simpl.
  - by rewrite orb_false_r.
  - rewrite orb_assoc. apply IH. by apply perform_load_inv.
Qed.

Lemma run_all_app ops1 ops2 w :
  run_all (ops1 ++ ops2) w = run_all ops2 (run_all ops1 w).
Proof. unfold run_all. apply fold_left_app. Qed.

(** C10: loading the extension is idempotent.  After any sequence of
    operations of one process the magics class has been registered once if
    the sequence contains a call of [load_ipython_extension] and not at all
    otherwise, so at most once; and in every state that follows a first
    call, a further call changes nothing. *)
Theorem load_ipython_extension_idempotent fs0 :
  (forall ops,
     registered (run_all ops (initial_world fs0)) =
       if existsb is_load ops then ["BlockdiagMagics"] else []) /\
  (forall ops, (length (registered (run_all ops (initial_world fs0))) <= 1)%nat) /\
  (forall ops1 ops2,
     let w := run_all (ops1 ++ Load :: ops2) (initial_world fs0) in
     load_ipython_extension w = (w, Ret tt)).
Proof.
  assert (Hinv : forall ops,
            load_inv (existsb is_load ops) (run_all ops (initial_world fs0))).
  { intros ops. apply (run_all_load_inv ops false). by split. }
  split; [|split].
  - intros ops. apply Hinv.
  - intros ops. destruct (Hinv ops) as [_ ->].
    destruct (existsb is_load ops); simpl; lia.
  - intros ops1 ops2 w. subst w. apply load_ipython_extension_again.
    destruct (Hinv (ops1 ++ Load :: ops2)) as [-> _].
    rewrite existsb_app. simpl. by rewrite orb_true_r.
Qed.

(** ** The format flags *)

Lemma diag_publish_mode line cell command :
  preserves _publish_mode (diag line cell command).
Proof. by apply preserves_diag. Qed.

Lemma diag_draw_mode line cell command w :
  _draw_mode (fst (diag line cell command w)) =
    match snd (inkscape_available w) with
    | Ret true => "SVG"
    | _ => _draw_mode w
    end.
Proof.
  assert (Hrest : forall code,
            preserves _draw_mode
              (data <- diag_try code command ;; diag_publish data)).
  { intros code. apply preserves_diag_render_blind; [done..|].
    intros; by apply preserves_svg2png. }
  pose proof (preserves_inkscape_available _draw_mode
                ltac:(by repeat split) ltac:(done) w) as Hia.
  unfold diag, diag_prelude, bind at 1 2.
  destruct (inkscape_available w) as [w1 [[|]|e]]; simpl in *.
  - unfold modify. simpl. by rewrite Hrest.
  - unfold ret. simpl. by rewrite Hrest.
  - done.
Qed.

(** C1 (as amended): the publish-mode flag is left unchanged by every
    invocation of [diag] and by the registration hook; the draw-mode flag is
    left unchanged by the registration hook, and by [diag] unless the
    converter is reported available, in which case [diag] sets it to
    ['SVG'] (lines 93-95). *)
Theorem diag_flag_effect line cell command w :
  _publish_mode (fst (diag line cell command w)) = _publish_mode w /\
  _draw_mode (fst (diag line cell command w)) =
    match snd (inkscape_available w) with
    | Ret true => "SVG"
    | _ => _draw_mode w
    end /\
  _publish_mode (fst (load_ipython_extension w)) = _publish_mode w /\
  _draw_mode (fst (load_ipython_extension w)) = _draw_mode w.
Proof.
  split; [apply diag_publish_mode|].
  split; [apply diag_draw_mode|].
  split; by apply preserves_load_ipython_extension.
Qed.

Lemma perform_flags_legal op w :
  flags_legal w -> flags_legal (fst (perform op w)).
Proof.
  intros [Hd Hp].
  assert (Hdiag : forall line cell (m : result command_module),
             flags_legal (fst ((command <- lift m ;; diag line cell command) w))).
  { intros line cell [command|e]; unfold bind, lift; simpl; [|by split].
    split.
    - rewrite diag_draw_mode.
      destruct (snd (inkscape_available w)) as [[|]|]; [by right|done..].
    - by rewrite diag_publish_mode. }
  destruct op; simpl; try apply Hdiag.
  - split; by rewrite preserves_load_ipython_extension.
  - split; by right.
  - split; by left.
Qed.

(** C8: after every operation of the extension (registration, any cell
    magic, either toggle command), performed in any order from the state of
    the freshly imported module, each of the two format flags is ['PNG'] or
    ['SVG']. *)
Theorem flags_always_legal fs0 ops :
  legal_mode (_draw_mode (run_all ops (initial_world fs0))) /\
  legal_mode (_publish_mode (run_all ops (initial_world fs0))).
Proof.
  assert (H : forall w, flags_legal w -> flags_legal (run_all ops w)).
  { induction ops as [|op ops IH]; intros w Hw; simpl; [done|].
    apply IH. by apply perform_flags_legal. }
  apply H. split; by left.
Qed.

(** ** The availability probe runs once *)




Lemma svg2png_spec filename w :
  svg2png filename w =
    match child w (fst (convert_call filename)) with
    | Exited rc fs' => (set_fs fs' (log_call (convert_call filename) w), Ret tt)
    | NotStarted strerror =>
        (print_stdout ("Exception " +:+ strerror)
           (log_call (convert_call filename) w), Ret tt)
    end.
Proof.
  unfold svg2png, bind. rewrite run_command_spec. unfold convert_call. simpl.
  by destruct (child w _).
Qed.


Lemma diag_prelude_returns w : snd (diag_prelude w) = Ret tt.
Proof.
  unfold diag_prelude, bind.
  destruct (inkscape_available_returns w) as [b Hb].
  destruct (inkscape_available w) as [w1 r]. simpl in Hb. subst r.
  by destruct b.
Qed.





(** ** Failures of the child process *)

(** C6 (as amended): when the executable cannot be started (the
    missing-executable condition, an [OSError]), [run_command] catches the
    failure, prints one diagnostic line on standard output, leaves standard
    error alone, and returns false instead of propagating an exception. *)
Theorem run_command_missing_executable args w strerror :
  child w args = NotStarted strerror ->
  snd (run_command args w) = Ret false /\
  sys_stdout (fst (run_command args w)) =
    sys_stdout w ++ ["Exception " +:+ strerror] /\
  sys_stderr (fst (run_command args w)) = sys_stderr w.
Proof. intros H. rewrite run_command_spec, H. by repeat split. Qed.

(** A child that was started counts as a success, whatever it returned:
    nothing is printed and the result is true. *)
Lemma run_command_started args w rc fs' :
  child w args = Exited rc fs' ->
  snd (run_command args w) = Ret true /\
  sys_stdout (fst (run_command args w)) = sys_stdout w /\
  sys_stderr (fst (run_command args w)) = sys_stderr w.
Proof. intros H. rewrite run_command_spec, H. by repeat split. Qed.

(** ** The scratch directory *)

Lemma unlink_all_lookup l : forall (d : gmap string string) k,
  unlink_all l d !! k = if decide (k ∈ l) then None else d !! k.
Proof.
  induction l as [|n l IH]; intros d k; simpl.
  - destruct (decide (k ∈ [])) as [H|H]; [by apply elem_of_nil in H | done].
  - unfold unlink_all in *. simpl. rewrite IH, lookup_delete.
    destruct (decide (n = k)) as [->|Hne].
    + destruct (decide (k ∈ l)); by rewrite decide_True by left.
    + destruct (decide (k ∈ l)) as [Hl|Hl].
      * by rewrite decide_True by (by right).
      * rewrite decide_False; [done|].
        intros [?|?]%elem_of_cons; congruence.
Qed.

Lemma unlink_all_listing (d : gmap string string) :
  unlink_all (fst <$> map_to_list d) d = ∅.
Proof.
  apply map_empty. intros k. rewrite unlink_all_lookup.
  destruct (decide _) as [Hk|Hk]; [done|].
  destruct (d !! k) as [x|] eqn:Hd; [|done].
  exfalso. apply Hk. apply list_elem_of_fmap. exists (k, x).
  split; [done|]. by apply elem_of_map_to_list.
Qed.

(** The loop of lines 131-132 on a listing without repetitions of existing
    entries: no [unlink] fails, and exactly the listed entries are gone. *)
Lemma for_each_unlink dir l : forall (d : gmap string string) w,
  fs w !! dir = Some d ->
  NoDup l ->
  (forall n, n ∈ l -> is_Some (d !! n)) ->
  snd (for_each l (fun file => unlink dir file) w) = Ret tt /\
  fs (fst (for_each l (fun file => unlink dir file) w)) =
    <[dir := unlink_all l d]> (fs w).
Proof.
  induction l as [|n l IH]; intros d w Hd Hnd Hin; simpl.
  - split; [done|]. unfold unlink_all. simpl. by rewrite insert_id.
  - apply NoDup_cons in Hnd as [Hn Hnd].
    destruct (Hin n ltac:(left)) as [x Hx].
    unfold bind, unlink at 1 3. rewrite Hd, Hx.
    set (w1 := set_fs (<[dir:=delete n d]> (fs w)) w).
    destruct (IH (delete n d) w1) as [Hr Hfs]; [|done| |].
    + apply lookup_insert_eq.
    + intros m Hm. rewrite lookup_delete_ne by (intros ->; done).
      apply Hin. by right.
    + split; [exact Hr|]. rewrite Hfs. unfold w1. simpl.
      by rewrite insert_insert_eq.
Qed.

(** *** Subdirectories *)

Lemma strip_prefix_self d : strip_prefix (d +:+ "/") d = None.
Proof.
  induction d as [|c d IH]; [done|].
  change (strip_prefix (String c (d +:+ "/")) (String c d) = None).
  simpl. by rewrite Ascii.eqb_refl.
Qed.

(** A directory is not a subdirectory of itself. *)
Lemma subdir_name_self d : subdir_name d d = None.
Proof. unfold subdir_name. by rewrite strip_prefix_self. Qed.

Lemma subdirs_nil d (f : filesystem) :
  subdirs d f = [] <-> forall k, is_Some (f !! k) -> subdir_name d k = None.
Proof.
  unfold subdirs. split.
  - intros Hnil k [x Hk]. destruct (subdir_name d k) as [n|] eqn:Hn; [|done].
    assert (Hin : n ∈ omap (subdir_name d) (fst <$> map_to_list f)).
    { apply list_elem_of_omap. exists k. split; [|done].
      apply list_elem_of_fmap. exists (k, x). split; [done|].
      by apply elem_of_map_to_list. }
    rewrite Hnil in Hin. by apply elem_of_nil in Hin.
  - intros Hall. apply elem_of_nil_inv. intros n Hin.
    apply list_elem_of_omap in Hin as (k & Hk & Hn).
    apply list_elem_of_fmap in Hk as ([k' x] & -> & Hkx).
    apply elem_of_map_to_list in Hkx. simpl in Hn.
    rewrite Hall in Hn by (by eexists). done.
Qed.

(** Whether [d] has subdirectories depends on the other directories only. *)
Lemma subdirs_nil_other_dirs d (f f' : filesystem) :
  (forall k, k <> d -> f' !! k = f !! k) ->
  subdirs d f = [] -> subdirs d f' = [].
Proof.
  rewrite !subdirs_nil. intros Hsame Hf k Hk.
  destruct (decide (k = d)) as [->|Hne]; [apply subdir_name_self|].
  apply Hf. by rewrite <- Hsame.
Qed.

(** The [finally] clause on an existing directory without subdirectories:
    it raises nothing, the directory is gone and every other directory is
    as it was. *)
Lemma diag_cleanup_spec tmpdir w :
  is_Some (fs w !! tmpdir) ->
  subdirs tmpdir (fs w) = [] ->
  snd (diag_cleanup tmpdir w) = Ret tt /\
  fs (fst (diag_cleanup tmpdir w)) = delete tmpdir (fs w).
Proof.
  intros [d Hd] Hsub.
  destruct (for_each_unlink tmpdir (fst <$> map_to_list d) d w Hd) as [Hr Hfs].
  { apply NoDup_fst_map_to_list. }
  { intros n [[k x] [-> Hkx]]%list_elem_of_fmap.
    apply elem_of_map_to_list in Hkx. by exists x. }
  assert (Heq : diag_cleanup tmpdir w =
                (set_fs (delete tmpdir (fs w))
                   (fst (for_each (fst <$> map_to_list d)
                           (fun file => unlink tmpdir file) w)), Ret tt)).
  { unfold diag_cleanup, bind, listdir. rewrite Hd, Hsub, app_nil_r.
    destruct (for_each _ _ w) as [w1 r]. simpl in *. subst r.
    unfold rmdir. rewrite Hfs, lookup_insert_eq, unlink_all_listing.
    rewrite decide_True by done.
    rewrite (subdirs_nil_other_dirs tmpdir (fs w)); [|by intros k Hk; rewrite lookup_insert_ne|done].
    by rewrite delete_insert_eq. }
  rewrite Heq. by split.
Qed.

(** The [finally] clause never touches another directory. *)
Lemma diag_cleanup_other_dirs tmpdir w d :
  d <> tmpdir -> fs (fst (diag_cleanup tmpdir w)) !! d = fs w !! d.
Proof.
  intros Hd. revert w.
  change (preserves (fun w => fs w !! d) (diag_cleanup tmpdir)).
  unfold diag_cleanup.
  apply preserves_bind; [apply preserves_listdir|]. intros files.
  apply preserves_bind.
  - apply preserves_for_each. intros name w. unfold unlink.
    destruct (fs w !! tmpdir) as [entries|]; [|done].
    destruct (entries !! name); simpl; [by rewrite lookup_insert_ne|].
    by destruct (bool_decide _).
  - intros _ w. unfold rmdir.
    destruct (fs w !! tmpdir) as [entries|]; [|done].
    destruct (decide (entries = ∅)); [|done].
    destruct (subdirs tmpdir (fs w)); simpl; [|done].
    by rewrite lookup_delete_ne.
Qed.


Lemma mkdtemp_spec candidates w w1 tmpdir :
  mkdtemp candidates w = (w1, Ret tmpdir) ->
  fs w !! tmpdir = None /\ fs w1 = <[tmpdir := ∅]> (fs w) /\
  subdirs tmpdir (fs w) = [].
Proof.
  unfold mkdtemp. destruct (find _ candidates) as [d|] eqn:Hf; [|done].
  intros [= <- <-]. apply find_some in Hf as [_ Hfree].
  unfold unused in Hfree. apply andb_true_iff in Hfree as [Hfree Hsub].
  split; [by destruct (fs w !! d)|]. split; [done|].
  by destruct (subdirs d (fs w)).
Qed.


(** ** Conversion and publication *)


Lemma render_view_tool_blind : tool_blind render_view.
Proof. by split. Qed.

Lemma render_view_fs_blind : fs_blind render_view.
Proof. by intros v w. Qed.

Lemma render_view_eq w1 w2 :
  render_view w1 = render_view w2 ->
  calls w1 = calls w2 /\ _draw_mode w1 = _draw_mode w2 /\
  _publish_mode w1 = _publish_mode w2 /\ published w1 = published w2.
Proof. unfold render_view. by intros [= -> -> -> ->]. Qed.

(** The [try] body starts the converter at most once, and only when the
    flags are ['SVG'] and ['PNG']; it publishes nothing and leaves the flags
    alone. *)
Lemma diag_body_calls tmpdir code command w :
  let w' := fst (diag_body tmpdir code command w) in
  _draw_mode w' = _draw_mode w /\ _publish_mode w' = _publish_mode w /\
  published w' = published w /\
  (calls w' = calls w \/
   wants_conversion w = true /\
   exists diag_name, calls w' = calls w ++ [convert_call diag_name]).
Proof.
  unfold diag_body, bind, get.
  pose proof (preserves_mkstemp render_view (tmp_file_names w) tmpdir
                render_view_fs_blind w) as Ha.
  destruct (mkstemp (tmp_file_names w) tmpdir w) as [wa [diag_name|e]];
    simpl in Ha; apply render_view_eq in Ha as (Hac & Had & Hap & Hapub);
    simpl; [|by rewrite Hac, Had, Hap, Hapub; auto].
  set (wb := set_fs _ wa).
  match goal with
  | |- context [command_main command ?argv wb] =>
      pose proof (preserves_command_main render_view command argv
                    render_view_tool_blind wb) as Hc;
      destruct (command_main command argv wb) as [wc [[]|e]]
  end; simpl in Hc; apply render_view_eq in Hc as (Hcc & Hcd & Hcp & Hcpub);
    unfold wb in *; simpl in *;
    [|by rewrite Hcc, Hcd, Hcp, Hcpub, Hac, Had, Hap, Hapub; auto].
  assert (Hw : wants_conversion wc = wants_conversion w).
  { unfold wants_conversion. by rewrite Hcd, Hcp, Had, Hap. }
  fold (wants_conversion wc).
  destruct (wants_conversion wc) eqn:Hconv.
  - rewrite svg2png_spec.
    destruct (child wc _); simpl; unfold read_file;
      destruct (lookup_file _ _); simpl;
      rewrite Hcc, Hcd, Hcp, Hcpub, Hac, Had, Hap, Hapub;
      (repeat split; try done); right; eauto.
  - unfold ret, read_file. simpl.
    destruct (lookup_file _ _); simpl;
      rewrite Hcc, Hcd, Hcp, Hcpub, Hac, Had, Hap, Hapub; auto.
Qed.

(** When the scratch file could be created and the renderer returned, the
    converter is started exactly when line 121 asks for it. *)
Lemma diag_body_converts tmpdir code command w wa diag_name :
  mkstemp (tmp_file_names w) tmpdir w = (wa, Ret diag_name) ->
  (forall wb argv, snd (main command wb argv) = None) ->
  calls (fst (diag_body tmpdir code command w)) =
    calls w ++ (if wants_conversion w then [convert_call diag_name] else []).
Proof.
  intros Hmk Hmain. unfold diag_body, bind, get.
  pose proof (preserves_mkstemp render_view (tmp_file_names w) tmpdir
                render_view_fs_blind w) as Ha.
  rewrite Hmk in *. simpl in Ha.
  apply render_view_eq in Ha as (Hac & Had & Hap & _). simpl.
  rewrite command_main_spec, Hmain. simpl.
  rewrite Had, Hap. fold (wants_conversion w).
  destruct (wants_conversion w).
  - rewrite svg2png_spec.
    destruct (child _ _); simpl; unfold read_file;
      destruct (lookup_file _ _); simpl; by rewrite Hac.
  - unfold ret, read_file. simpl.
    destruct (lookup_file _ _); simpl; by rewrite app_nil_r, Hac.
Qed.

(** The data the [try] body returns are the bytes of the output file as it
    is when the body ends. *)
Lemma diag_body_data tmpdir code command w data :
  snd (diag_body tmpdir code command w) = Ret data ->
  exists diag_name,
    path_dir diag_name = tmpdir /\
    lookup_file
      (output_file diag_name (fst (diag_body tmpdir code command w)))
      (fs (fst (diag_body tmpdir code command w))) = Some data.
Proof.
  unfold diag_body, bind, get.
  assert (Hdir : forall wa p,
            mkstemp (tmp_file_names w) tmpdir w = (wa, Ret p) ->
            path_dir p = tmpdir).
  { unfold mkstemp. intros wa p. destruct (fs w !! tmpdir); [|done].
    destruct (find _ _); [|done]. by intros [= _ <-]. }
  destruct (mkstemp (tmp_file_names w) tmpdir w) as [wa [diag_name|e]];
    simpl; [|done].
  specialize (Hdir wa diag_name eq_refl).
  match goal with
  | |- context [command_main command ?argv ?wb] =>
      destruct (command_main command argv wb) as [wc [[]|e]]
  end; simpl; [|done].
  assert (Hsvg : forall (b : bool),
            exists wd, (if b then svg2png diag_name else ret tt) wc = (wd, Ret tt)).
  { intros [|]; [|by eexists]. rewrite svg2png_spec.
    destruct (child wc _); by eexists. }
  match goal with
  | |- context [(if ?b then _ else _) wc] => destruct (Hsvg b) as [wd ->]
  end.
  unfold read_file, output_file.
  destruct (lookup_file _ (fs wd)) as [data'|] eqn:Hl; simpl; [|done].
  intros [= <-]. exists diag_name. by split.
Qed.

Lemma diag_publish_spec data w :
  diag_publish data w =
    (let '(a, b, c) := display_call (_publish_mode w) data in
     publish_display_data a b c w, Ret tt).
Proof.
  unfold diag_publish, bind, get, display_call, mime_type.
  by destruct (String.eqb (_publish_mode w) "SVG").
Qed.

Lemma published_diag_publish data w :
  published (fst (diag_publish data w)) =
    published w ++ [display_call (_publish_mode w) data].
Proof.
  rewrite diag_publish_spec.
  by destruct (display_call (_publish_mode w) data) as [[a b] c].
Qed.

(** [diag] step by step: the probe, [mkdtemp], the [try] body, the
    [finally] clause, the publication. *)
Lemma diag_unfold line cell command w :
  diag line cell command w =
    let wp := fst (diag_prelude w) in
    match mkdtemp (tmp_dir_names wp) wp with
    | (w1, Ret tmpdir) =>
        let '(w2, r) := diag_body tmpdir (cell ++ [10%N]) command w1 in
        match diag_cleanup tmpdir w2 with
        | (w3, Ret _) =>
            match r with
            | Ret data => diag_publish data w3
            | Raise e => (w3, Raise e)
            end
        | (w3, Raise e) => (w3, Raise e)
        end
    | (w1, Raise _) => (w1, Raise (UnboundLocalError "tmpdir"))
    end.
Proof.
  unfold diag, bind. pose proof (diag_prelude_returns w) as Hret.
  destruct (diag_prelude w) as [wp r]. simpl in *. subst r.
  unfold diag_try, try_finally.
  destruct (mkdtemp (tmp_dir_names wp) wp) as [w1 [tmpdir|e]]; [|done].
  destruct (diag_body tmpdir _ command w1) as [w2 r].
  destruct (diag_cleanup tmpdir w2) as [w3 [[]|e]]; [|done].
  by destruct r.
Qed.

(** [svg2png] is started by [diag] at most once, after the probe, and only
    if the flags are ['SVG'] and ['PNG'] once lines 92-95 have run; the
    flags stay as they are from then on. *)
Lemma diag_calls line cell command w :
  let wp := fst (diag_prelude w) in
  let w' := fst (diag line cell command w) in
  _draw_mode w' = _draw_mode wp /\ _publish_mode w' = _publish_mode wp /\
  (calls w' = calls wp \/
   wants_conversion wp = true /\
   exists diag_name, calls w' = calls wp ++ [convert_call diag_name]).
Proof.
  intros wp w'. subst w'. rewrite diag_unfold. fold wp. cbv zeta.
  pose proof (preserves_mkdtemp render_view (tmp_dir_names wp)
                render_view_fs_blind wp) as H1.
  destruct (mkdtemp (tmp_dir_names wp) wp) as [w1 [tmpdir|e]]; simpl in H1;
    apply render_view_eq in H1 as (H1c & H1d & H1p & _); [|by auto].
  pose proof (diag_body_calls tmpdir (cell ++ [10%N]) command w1)
    as (H2d & H2p & _ & H2c).
  destruct (diag_body tmpdir _ command w1) as [w2 r]. simpl in *.
  pose proof (preserves_diag_cleanup render_view tmpdir
                render_view_fs_blind w2) as H3.
  assert (Hw : wants_conversion w1 = wants_conversion wp).
  { unfold wants_conversion. by rewrite H1d, H1p. }
  rewrite Hw, H1c, H1d, H1p in *.
  assert (Hgoal : forall w3, render_view w3 = render_view w2 ->
            _draw_mode w3 = _draw_mode wp /\ _publish_mode w3 = _publish_mode wp /\
            (calls w3 = calls wp \/
             wants_conversion wp = true /\
             exists diag_name, calls w3 = calls wp ++ [convert_call diag_name])).
  { intros w3 (-> & -> & -> & _)%render_view_eq. auto. }
  destruct (diag_cleanup tmpdir w2) as [w3 [[]|e]]; simpl in H3;
    [|by apply Hgoal].
  destruct r as [data|e]; simpl; [|by apply Hgoal].
  rewrite diag_publish_spec.
  destruct (display_call _ data) as [[a b] c]. simpl.
  destruct (Hgoal w3 H3) as (? & ? & ?). auto.
Qed.

(** When [diag] returns, it has published exactly one call: the one of
    lines 135-146 for the publish mode, carrying the bytes of the output
    file as the [try] body left it. *)
Lemma diag_published line cell command w :
  snd (diag line cell command w) = Ret tt ->
  exists tmpdir wb diag_name data,
    path_dir diag_name = tmpdir /\
    lookup_file (output_file diag_name wb) (fs wb) = Some data /\
    _publish_mode wb = _publish_mode w /\
    published (fst (diag line cell command w)) =
      published w ++ [display_call (_publish_mode w) data].
Proof.
  rewrite diag_unfold. cbv zeta.
  assert (Hpre : preserves (fun w => (_publish_mode w, published w)) diag_prelude).
  { unfold diag_prelude.
    apply preserves_bind; [by apply preserves_inkscape_available|].
    intros b. apply preserves_if; [by apply preserves_modify | apply preserves_ret]. }
  specialize (Hpre w). simpl in Hpre.
  set (wp := fst (diag_prelude w)) in *.
  injection Hpre as Hpm Hpub.
  pose proof (preserves_mkdtemp render_view (tmp_dir_names wp)
                render_view_fs_blind wp) as H1.
  destruct (mkdtemp (tmp_dir_names wp) wp) as [w1 [tmpdir|e]]; simpl in H1;
    apply render_view_eq in H1 as (_ & _ & H1p & H1pub); [|done].
  pose proof (diag_body_calls tmpdir (cell ++ [10%N]) command w1)
    as (_ & H2p & H2pub & _).
  pose proof (diag_body_data tmpdir (cell ++ [10%N]) command w1) as Hdata.
  destruct (diag_body tmpdir _ command w1) as [w2 r]. simpl in *.
  pose proof (preserves_diag_cleanup render_view tmpdir
                render_view_fs_blind w2) as H3.
  destruct (diag_cleanup tmpdir w2) as [w3 [[]|e]]; simpl in H3;
    apply render_view_eq in H3 as (_ & _ & H3p & H3pub); [|done].
  destruct r as [data|e]; simpl; [|done]. intros _.
  destruct (Hdata data eq_refl) as (diag_name & Hdir & Hfile).
  exists tmpdir, w2, diag_name, data.
  rewrite published_diag_publish. repeat split; try done; congruence.
Qed.

(** The structured path stands for the string the source builds:
    [diag_name + suffix] is the string of [path_add diag_name suffix]. *)
Lemma path_str_add p suffix :
  path_str (path_add p suffix) = path_str p +:+ suffix.
Proof.
  unfold path_str, path_add. simpl.
  assert (Hassoc : forall a b c : string, (a +:+ b) +:+ c = a +:+ (b +:+ c)).
  { intros a b c. induction a as [|x a IH]; [done|].
    change (String x ((a +:+ b) +:+ c) = String x (a +:+ (b +:+ c))).
    by rewrite IH. }
  by rewrite !Hassoc.
Qed.

(** With a scratch directory, a scratch file and a renderer that returns,
    the converter is started exactly when the flags are ['SVG'] and ['PNG']
    at the time of the render. *)
Lemma diag_converts line cell command w w1 tmpdir wa diag_name :
  mkdtemp (tmp_dir_names (fst (diag_prelude w))) (fst (diag_prelude w))
    = (w1, Ret tmpdir) ->
  mkstemp (tmp_file_names w1) tmpdir w1 = (wa, Ret diag_name) ->
  (forall wb argv, snd (main command wb argv) = None) ->
  calls (fst (diag line cell command w)) =
    calls (fst (diag_prelude w)) ++
    (if wants_conversion (fst (diag_prelude w))
     then [convert_call diag_name] else []).
Proof.
  intros Hmkd Hmks Hmain. rewrite diag_unfold. cbv zeta. rewrite Hmkd.
  pose proof (preserves_mkdtemp render_view
                (tmp_dir_names (fst (diag_prelude w))) render_view_fs_blind
                (fst (diag_prelude w))) as H1.
  rewrite Hmkd in H1. simpl in H1.
  apply render_view_eq in H1 as (H1c & H1d & H1p & _).
  pose proof (diag_body_converts tmpdir (cell ++ [10%N]) command w1 wa
                diag_name Hmks Hmain) as H2.
  assert (Hw : wants_conversion w1 = wants_conversion (fst (diag_prelude w))).
  { unfold wants_conversion. by rewrite H1d, H1p. }
  rewrite Hw, H1c in H2.
  destruct (diag_body tmpdir _ command w1) as [w2 r]. simpl in H2.
  pose proof (preserves_diag_cleanup calls tmpdir ltac:(done) w2) as H3.
  destruct (diag_cleanup tmpdir w2) as [w3 [[]|e]]; simpl in *;
    [|congruence].
  destruct r as [data|e]; simpl; [|congruence].
  rewrite (preserves_diag_publish calls data ltac:(done) w3). congruence.
Qed.

(** No position of [publish_display_data] receives the dict in both publish
    modes: the two calls of lines 136-146 list the same three kinds of
    argument in opposite orders. *)
Lemma display_call_positions data1 data2 :
  let '(a1, b1, c1) := display_call "SVG" data1 in
  let '(a2, b2, c2) := display_call "PNG" data2 in
  is_mapping a1 && is_mapping a2 = false /\
  is_mapping b1 && is_mapping b2 = false /\
  is_mapping c1 && is_mapping c2 = false.
Proof. by repeat split. Qed.

(** * Further properties of the module *)

(** ** [_import_all] *)

Lemma import_items_lookup {V} (l : list (string * V)) :
  NoDup l.*1 -> forall (ns : gmap string V) k,
  foldl import_item ns l !! k =
    if startswith "__" k then ns !! k
    else match (list_to_map l : gmap string V) !! k with
         | Some v => Some v
         | None => ns !! k
         end.
Proof.
  induction l as [|[k0 v0] l IH]; intros Hnd ns k; simpl.
  - rewrite lookup_empty. by destruct (startswith "__" k).
  - apply NoDup_cons in Hnd as [Hk0 Hnd]. rewrite (IH Hnd).
    unfold import_item, shell_push. simpl.
    destruct (decide (k0 = k)) as [->|Hne].
    + rewrite lookup_insert_eq.
      destruct (startswith "__" k) eqn:Hd; simpl; [done|].
      rewrite (not_elem_of_list_to_map_1 l k Hk0).
      by rewrite lookup_union_l', lookup_singleton_eq by
        (rewrite ?lookup_singleton_eq; eauto).
    + rewrite lookup_insert_ne by done.
      assert (Hns : (if negb (startswith "__" k0)
                     then ({[k0 := v0]} : gmap string V) ∪ ns else ns) !! k
                    = ns !! k).
      { destruct (negb _); [|done].
        by rewrite lookup_union_r by (by rewrite lookup_singleton_ne). }
      by rewrite Hns.
Qed.

(** X1: after [_import_all], a name that starts with two underscores is
    bound as it was before (the module's own entry is never pushed); any
    other name is bound to the module's value if the module has one and as
    it was before otherwise. *)
Theorem import_all_lookup {V} (module_dict user_ns : gmap string V) k :
  _import_all module_dict user_ns !! k =
    if startswith "__" k then user_ns !! k
    else match module_dict !! k with
         | Some v => Some v
         | None => user_ns !! k
         end.
Proof.
  unfold _import_all.
  rewrite import_items_lookup by apply NoDup_fst_map_to_list.
  by rewrite list_to_map_to_list.
Qed.

(** ** [run_command] once more *)

Lemma run_command_unfold args :
  run_command args = try_except (run_command_body args) run_command_handler.
Proof. reflexivity. Qed.

(** X2: at the module's own two call sites (the probe of line 82 and the
    conversion of lines 86-87) [run_command] never raises and never prints
    on standard error.  It starts exactly one child, with the arguments it
    was given and with a [STARTUPINFO] whose [dwFlags] is
    [STARTF_USESHOWWINDOW] on Windows and [None] elsewhere; it returns true
    exactly when the child could be started; and it leaves the four globals
    alone. *)
Theorem run_command_behaviour args w :
  args = probe_args \/ (exists filename, args = fst (convert_call filename)) ->
  (exists b,
     snd (run_command args w) = Ret b /\
     (b = true <-> exists rc fs', child w args = Exited rc fs')) /\
  sys_stderr (fst (run_command args w)) = sys_stderr w /\
  calls (fst (run_command args w)) =
    calls w ++ [(args, if String.eqb os_name "nt"
                       then Some {| dwFlags := 1 |} else None)] /\
  _draw_mode (fst (run_command args w)) = _draw_mode w /\
  _publish_mode (fst (run_command args w)) = _publish_mode w /\
  _inkscape_available (fst (run_command args w)) = _inkscape_available w /\
  _loaded (fst (run_command args w)) = _loaded w.
Proof.
  intros _. rewrite run_command_spec. unfold run_command_startupinfo.
  destruct (child w args) as [rc fs'|strerror]; simpl.
  - split; [|done]. exists true. split; [done|]. split; eauto.
  - split; [|done]. exists false. split; [done|].
    split; [done|]. by intros (? & ? & ?).
Qed.

(** X3: had [subprocess] ever raised [CalledProcessError], the handler of
    lines 69-73 would print [e.output] on standard error and then fail
    itself: its format string has two conversions for one argument, so a
    [TypeError] leaves [run_command] instead of the result false. *)
Theorem run_command_handler_format_error rc cmd output w :
  run_command_handler (CalledProcessError rc cmd output) w =
    (print_stderr output w,
     Raise (TypeError "not enough arguments for format string")).
Proof. reflexivity. Qed.

(** ** Frame lemmas for parts of the world that the streams can reach *)

Lemma preserves_inkscape_available_gen {X} (proj : world -> X) :
  (forall args, preserves proj (run_command args)) ->
  (forall v w, proj (set_inkscape_available v w) = proj w) ->
  preserves proj inkscape_available.
Proof.
  intros Hrun Hset. unfold inkscape_available.
  apply preserves_bind; [apply preserves_get|]. intros w0.
  destruct (_inkscape_available w0); [apply preserves_ret|].
  apply preserves_bind; [apply Hrun|]. intros b.
  apply preserves_bind; [by apply preserves_modify | intros; apply preserves_ret].
Qed.

Lemma preserves_svg2png_gen {X} (proj : world -> X) filename :
  (forall args, preserves proj (run_command args)) ->
  preserves proj (svg2png filename).
Proof.
  intros Hrun. unfold svg2png.
  apply preserves_bind; [apply Hrun | intros; apply preserves_ret].
Qed.

Lemma preserves_diag_gen {X} (proj : world -> X) line cell command :
  fs_blind proj -> pub_blind proj ->
  (forall args, preserves proj (run_command args)) ->
  (forall v w, proj (set_inkscape_available v w) = proj w) ->
  (forall v w, proj (set_draw_mode v w) = proj w) ->
  (forall argv, preserves proj (command_main command argv)) ->
  preserves proj (diag line cell command).
Proof.
  intros Hfs Hpub Hrun Hia Hdm Hmain. unfold diag.
  apply preserves_bind.
  - unfold diag_prelude.
    apply preserves_bind; [by apply preserves_inkscape_available_gen|].
    intros b. apply preserves_if; [by apply preserves_modify | apply preserves_ret].
  - intros _. apply preserves_diag_render; [done..|].
    intros; by apply preserves_svg2png_gen.
Qed.

(** A cell magic: only the module that was imported is ever run. *)
Lemma preserves_magic {X} (proj : world -> X) (m : result command_module)
    line cell :
  (forall c, m = Ret c -> preserves proj (diag line cell c)) ->
  preserves proj (command <- lift m ;; diag line cell command).
Proof.
  intros Hc w. unfold bind, lift. destruct m as [c|e]; [|done].
  by apply Hc.
Qed.

Lemma preserves_perform_gen {X} (proj : world -> X) op :
  fs_blind proj -> pub_blind proj ->
  (forall args, preserves proj (run_command args)) ->
  (forall v w, proj (set_inkscape_available v w) = proj w) ->
  (forall v w, proj (set_draw_mode v w) = proj w) ->
  (forall v w, proj (set_publish_mode v w) = proj w) ->
  (forall c w, proj (register_magics c w) = proj w) ->
  (forall v w, proj (set_loaded v w) = proj w) ->
  (forall c,
     In (Ret c) [actdiag_command; blockdiag_command; nwdiag_command;
                 seqdiag_command] ->
     forall argv, preserves proj (command_main c argv)) ->
  preserves proj (perform op).
Proof.
  intros Hfs Hpub Hrun Hia Hdm Hpm Hreg Hld Hmain.
  destruct op; simpl;
    try (apply preserves_magic; intros c ->;
         apply preserves_diag_gen; try done;
         apply Hmain; simpl; tauto).
  - by apply preserves_load_ipython_extension.
  - intros w. simpl. by rewrite Hpm, Hdm.
  - intros w. simpl. by rewrite Hpm, Hdm.
Qed.

Lemma run_all_preserves {X} (proj : world -> X) :
  (forall op, preserves proj (perform op)) ->
  forall ops w, proj (run_all ops w) = proj w.
Proof.
  intros Hop ops. induction ops as [|op ops IH]; intros w; simpl; [done|].
  by rewrite IH, Hop.
Qed.

(** X4: the extension's own code never prints on standard error: the only
    statements that would are in the handler of lines 69-73, which is never
    reached.  Over any sequence of operations, whatever the children do, the
    lines on [sys.stderr] stay as they were unless an imported renderer
    prints there itself. *)
Theorem never_prints_on_stderr ops w :
  (forall c,
     In (Ret c) [actdiag_command; blockdiag_command; nwdiag_command;
                 seqdiag_command] ->
     forall wb argv, snd (main_prints c wb argv) = []) ->
  sys_stderr (run_all ops w) = sys_stderr w.
Proof.
  intros Hquiet. apply run_all_preserves. intros op.
  apply preserves_perform_gen; try done.
  - intros args w0. rewrite run_command_spec. by destruct (child w0 args).
  - intros c Hc argv w0. rewrite command_main_spec. simpl.
    by rewrite (Hquiet c Hc), app_nil_r.
Qed.

(** ** The children the module starts *)

Lemma diag_prelude_calls w :
  calls (fst (diag_prelude w)) = calls w \/
  calls (fst (diag_prelude w)) =
    calls w ++ [(probe_args, run_command_startupinfo)].
Proof.
  unfold diag_prelude, bind.
  destruct (_inkscape_available w) as [b|] eqn:Hc.
  - rewrite (inkscape_available_cached _ _ Hc). left. by destruct b.
  - rewrite (inkscape_available_probe _ Hc). right.
    by destruct (child w probe_args).
Qed.

Lemma diag_only_inkscape line cell command w :
  only_inkscape w -> only_inkscape (fst (diag line cell command w)).
Proof.
  unfold only_inkscape. intros Hw.
  assert (Hp : Forall (fun c => (exists rest, fst c = "inkscape" :: rest) /\
                                snd c = run_command_startupinfo)
                 (calls (fst (diag_prelude w)))).
  { destruct (diag_prelude_calls w) as [-> | ->]; [done|].
    apply Forall_app. split; [done|]. apply Forall_singleton.
    split; [by eexists | done]. }
  destruct (diag_calls line cell command w) as (_ & _ & [-> | [_ [f ->]]]);
    [done|].
  apply Forall_app. split; [done|]. apply Forall_singleton.
  split; [by eexists | done].
Qed.

(** X5: the only program the extension ever starts is inkscape.  After
    any sequence of operations from the freshly imported module, every
    logged [subprocess.call] has ['inkscape'] as its first argument and the
    [startupinfo] of lines 61-65. *)
Theorem starts_only_inkscape fs0 ops :
  Forall (fun c => (exists rest, fst c = "inkscape" :: rest) /\
                   snd c = run_command_startupinfo)
         (calls (run_all ops (initial_world fs0))).
Proof.
  assert (H : forall w, only_inkscape w -> only_inkscape (run_all ops w)).
  { induction ops as [|op ops IH]; intros w Hw; simpl; [done|].
    apply IH.
    assert (Hmagic : forall line cell (m : result command_module),
              only_inkscape
                (fst ((command <- lift m ;; diag line cell command) w))).
    { intros line cell [command|e]; unfold bind, lift; simpl; [|done].
      by apply diag_only_inkscape. }
    destruct op as [|l c|l c|l c|l c|l c|l c]; try apply Hmagic.
    - unfold only_inkscape.
      by rewrite (preserves_load_ipython_extension calls).
    - done.
    - done. }
  apply H. apply Forall_nil_2.
Qed.

(** ** The combinations of the two flags *)

Lemma perform_flags_reachable op w :
  flags_reachable w -> flags_reachable (fst (perform op w)).
Proof.
  intros Hw.
  assert (Hdiag : forall line cell (m : result command_module),
            flags_reachable
              (fst ((command <- lift m ;; diag line cell command) w))).
  { intros line cell [command|e]; unfold bind, lift; simpl; [|done].
    unfold flags_reachable. rewrite diag_draw_mode, diag_publish_mode.
    destruct (snd (inkscape_available w)) as [[|]|]; try done.
    destruct Hw as [[_ ->]|[[_ ->]|[_ ->]]]; auto. }
  destruct op as [|l c|l c|l c|l c|l c|l c]; try apply Hdiag.
  - unfold flags_reachable.
    by rewrite !(preserves_load_ipython_extension _draw_mode),
               !(preserves_load_ipython_extension _publish_mode).
  - right; left. by split.
  - left. by split.
Qed.

(** X6: after any sequence of operations from the freshly imported module
    the pair (draw mode, publish mode) is ('PNG', 'PNG'), ('SVG', 'SVG') or
    ('SVG', 'PNG'): the file read in line 125 is always one the renderer
    (equal modes) or the converter ('SVG' drawn, 'PNG' published) was asked
    for; draw mode 'PNG' with publish mode 'SVG' never occurs. *)
Theorem flag_combinations fs0 ops :
  let w := run_all ops (initial_world fs0) in
  (_draw_mode w = "PNG" /\ _publish_mode w = "PNG") \/
  (_draw_mode w = "SVG" /\ _publish_mode w = "SVG") \/
  (_draw_mode w = "SVG" /\ _publish_mode w = "PNG").
Proof.
  assert (H : forall w, flags_reachable w -> flags_reachable (run_all ops w)).
  { induction ops as [|op ops IH]; intros w Hw; simpl; [done|].
    apply IH. by apply perform_flags_reachable. }
  apply H. left. by split.
Qed.

(** ** The cached answer of the probe *)

Lemma diag_prelude_cached w b :
  _inkscape_available w = Some b ->
  diag_prelude w = (if b then set_draw_mode "SVG" w else w, Ret tt).
Proof.
  intros Hc. unfold diag_prelude, bind.
  rewrite (inkscape_available_cached _ _ Hc). by destruct b.
Qed.

Lemma perform_keeps_cache op w b :
  _inkscape_available w = Some b ->
  _inkscape_available (fst (perform op w)) = Some b.
Proof.
  intros Hc.
  assert (Hdiag : forall line cell (m : result command_module),
            _inkscape_available
              (fst ((command <- lift m ;; diag line cell command) w)) = Some b).
  { intros line cell [command|e]; unfold bind at 1, lift; simpl; [|done].
    unfold diag, bind at 1. rewrite (diag_prelude_cached _ _ Hc).
    rewrite (preserves_diag_render_blind _inkscape_available); [by destruct b|done..|].
    intros; by apply preserves_svg2png. }
  destruct op as [|l c|l c|l c|l c|l c|l c]; try apply Hdiag; try done.
  by rewrite (preserves_load_ipython_extension _inkscape_available).
Qed.

(** X7: the answer of the probe is final.  Once [_inkscape_available] holds
    a boolean, no operation of the extension changes or clears it, and
    [inkscape_available] keeps returning that boolean without starting a
    child, for the rest of the process. *)
Theorem probe_answer_is_final ops w b :
  _inkscape_available w = Some b ->
  _inkscape_available (run_all ops w) = Some b /\
  inkscape_available (run_all ops w) = (run_all ops w, Ret b).
Proof.
  intros Hc.
  assert (H : _inkscape_available (run_all ops w) = Some b).
  { revert w Hc. induction ops as [|op ops IH]; intros w Hc; simpl; [done|].
    apply IH. by apply perform_keeps_cache. }
  split; [exact H | by apply inkscape_available_cached].
Qed.

(** X8: with the probe's answer cached, [diag] starts no child process at
    all when the publish mode is ['SVG'], nor when inkscape is known to be
    missing and the draw mode is ['PNG']: the call log is left as it
    was. *)
Theorem diag_starts_no_child line cell command w b :
  _inkscape_available w = Some b ->
  _publish_mode w = "SVG" \/ (b = false /\ _draw_mode w = "PNG") ->
  calls (fst (diag line cell command w)) = calls w.
Proof.
  intros Hc Hmode.
  pose proof (diag_calls line cell command w) as (_ & _ & Hcalls).
  rewrite (diag_prelude_cached _ _ Hc) in Hcalls. simpl in Hcalls.
  assert (Hc' : calls (if b then set_draw_mode "SVG" w else w) = calls w)
    by (by destruct b).
  assert (Hw : wants_conversion (if b then set_draw_mode "SVG" w else w) = false).
  { unfold wants_conversion. destruct Hmode as [Hp|[-> Hd]].
    - assert (Hp' : _publish_mode (if b then set_draw_mode "SVG" w else w) = "SVG")
        by (by destruct b).
      rewrite Hp'. apply andb_false_r.
    - by rewrite Hd. }
  rewrite Hw, Hc' in Hcalls. by destruct Hcalls as [?|[? _]].
Qed.

(** ** The steps of the [try] body *)

Lemma mkdtemp_raise candidates w w1 e :
  mkdtemp candidates w = (w1, Raise e) -> w1 = w.
Proof.
  unfold mkdtemp. destruct (find _ candidates); [done|]. by intros [= <- _].
Qed.

Lemma mkstemp_spec candidates dir w wa p :
  mkstemp candidates dir w = (wa, Ret p) ->
  exists d n,
    fs w !! dir = Some d /\ d !! n = None /\
    p = {| path_dir := dir; path_base := n |} /\
    wa = set_fs (<[dir := <[n := EmptyString]> d]> (fs w)) w.
Proof.
  unfold mkstemp. destruct (fs w !! dir) as [d|] eqn:Hd; [|done].
  destruct (find _ candidates) as [n|] eqn:Hf; [|done].
  intros [= <- <-]. exists d, n. apply find_some in Hf as [_ Hfree].
  repeat split; try done. by destruct (d !! n).
Qed.


Lemma mkstemp_keeps_dir candidates dir w wa p :
  mkstemp candidates dir w = (wa, Ret p) ->
  path_dir p = dir /\ is_Some (fs wa !! dir) /\
  render_view wa = render_view w.
Proof.
  intros (d & n & Hd & Hn & -> & ->)%mkstemp_spec. simpl.
  by rewrite lookup_insert_eq.
Qed.

Lemma append_eq_self (n s : string) : n +:+ s = n -> s = EmptyString.
Proof.
  induction n as [|c n IH]; [done|].
  change (String c (n +:+ s) = String c n -> s = EmptyString).
  intros [= H]. by apply IH.
Qed.

Lemma read_file_missing p w :
  lookup_file p (fs w) = None ->
  read_file p w =
    (w, Raise (IOError ("No such file or directory: " +:+ path_str p))).
Proof. intros H. unfold read_file. by rewrite H. Qed.

Lemma encode_utf8_app u v :
  encode_utf8 (u ++ v) = encode_utf8 u +:+ encode_utf8 v.
Proof.
  unfold encode_utf8. rewrite flat_map_app.
  generalize (flat_map utf8_encode_char u) as a.
  generalize (flat_map utf8_encode_char v) as b.
  intros b a. induction a as [|x a IH]; [done|]. simpl.
  change (String x (string_of_list_ascii (a ++ b)) =
          String x (string_of_list_ascii a +:+ string_of_list_ascii b)).
  by rewrite IH.
Qed.

Lemma render_argv_eq diag_name mode :
  (if String.eqb mode "SVG"
   then [path_str diag_name; "-T"; lower mode; "-o";
         path_str (path_add diag_name ("." +:+ lower mode)); ""]
   else [path_str diag_name; "-T"; lower mode; "-o";
         path_str (path_add diag_name ("." +:+ lower mode))]) =
  render_argv diag_name mode.
Proof.
  unfold render_argv. rewrite path_str_add.
  by destruct (String.eqb mode "SVG").
Qed.

(** The scratch directory when the renderer is called: it holds the scratch
    file and nothing else. *)
Lemma scratch_directory_content w tmpdir w1 wa diag_name data :
  mkdtemp (tmp_dir_names w) w = (w1, Ret tmpdir) ->
  mkstemp (tmp_file_names w1) tmpdir w1 = (wa, Ret diag_name) ->
  path_dir diag_name = tmpdir /\
  fs (fst (write_fd diag_name data wa)) !! tmpdir =
    Some {[path_base diag_name := data]}.
Proof.
  intros (_ & Hnew & _)%mkdtemp_spec (d & n & Hd & _ & -> & ->)%mkstemp_spec.
  rewrite Hnew, lookup_insert_eq in Hd. injection Hd as <-.
  split; [done|]. simpl.
  rewrite lookup_alter_eq, lookup_insert_eq. simpl.
  by rewrite insert_insert_eq, insert_empty.
Qed.

(** Writing the scratch file touches the scratch directory only. *)
Lemma scratch_other_dirs w tmpdir w1 wa diag_name data k :
  mkdtemp (tmp_dir_names w) w = (w1, Ret tmpdir) ->
  mkstemp (tmp_file_names w1) tmpdir w1 = (wa, Ret diag_name) ->
  k <> tmpdir ->
  fs (fst (write_fd diag_name data wa)) !! k = fs w !! k.
Proof.
  intros (_ & Hnew & _)%mkdtemp_spec (d & n & Hd & _ & -> & ->)%mkstemp_spec Hk.
  simpl. by rewrite lookup_alter_ne, lookup_insert_ne, Hnew, lookup_insert_ne.
Qed.

(** The [try] body from the point where the scratch file exists: the
    renderer is run on the argument vector of lines 108 and 116, in a world
    whose scratch file holds the encoded cell and a newline, and lines
    121-128 follow. *)
Lemma diag_body_unfold tmpdir cell command w wa diag_name :
  mkstemp (tmp_file_names w) tmpdir w = (wa, Ret diag_name) ->
  diag_body tmpdir (cell ++ [10%N]) command w =
    (command_main command (render_argv diag_name (_draw_mode w)) ;;;
     diag_after_render diag_name)
      (fst (write_fd diag_name (encode_utf8 cell +:+ nl) wa)).
Proof.
  intros Hmks.
  assert (Hnl : encode_utf8 (cell ++ [10%N]) = encode_utf8 cell +:+ nl)
    by (by rewrite encode_utf8_app).
  assert (Hdm : _draw_mode wa = _draw_mode w).
  { by apply mkstemp_keeps_dir in Hmks as (_ & _ & (_ & ? & _)%render_view_eq). }
  unfold diag_body, diag_after_render, bind, get. rewrite Hmks, Hnl. simpl.
  by rewrite Hdm, (render_argv_eq diag_name (_draw_mode w)).
Qed.

(** What lines 92-95 leave alone. *)
Lemma diag_prelude_frame w :
  _publish_mode (fst (diag_prelude w)) = _publish_mode w /\
  published (fst (diag_prelude w)) = published w.
Proof.
  assert (Hpre : preserves (fun w => (_publish_mode w, published w)) diag_prelude).
  { unfold diag_prelude.
    apply preserves_bind; [by apply preserves_inkscape_available|].
    intros b. apply preserves_if; [by apply preserves_modify | apply preserves_ret]. }
  specialize (Hpre w). simpl in Hpre. by injection Hpre as -> ->.
Qed.

(** ** Publication *)

Lemma diag_failure_publishes_nothing line cell command w e :
  snd (diag_try (cell ++ [10%N]) command (fst (diag_prelude w))) = Raise e ->
  diag line cell command w =
    (fst (diag_try (cell ++ [10%N]) command (fst (diag_prelude w))), Raise e) /\
  published (fst (diag line cell command w)) = published w.
Proof.
  intros Htry.
  pose proof (diag_prelude_returns w) as Hret.
  destruct (diag_prelude_frame w) as [_ Hpub].
  pose proof (preserves_diag_try published (cell ++ [10%N]) command
                ltac:(done)
                ltac:(intros argv; by apply preserves_command_main)
                ltac:(intros f; by apply preserves_svg2png)
                (fst (diag_prelude w))) as Hp.
  assert (Heq : diag line cell command w =
            (fst (diag_try (cell ++ [10%N]) command (fst (diag_prelude w))),
             Raise e)).
  { unfold diag, bind. destruct (diag_prelude w) as [wp r]. simpl in *.
    subst r. destruct (diag_try _ command wp) as [w3 r]. simpl in *.
    by subst r. }
  split; [done|]. rewrite Heq. simpl. congruence.
Qed.

(** X9: [diag] calls [publish_display_data] at most once, as its last
    statement, and only when the [try] statement has completed.  When the
    [try] statement is left by an exception, that exception leaves [diag]
    and the host has not been called; when it completes with the bytes
    [data], the host is called exactly once, with the arguments of lines
    135-146 for the publish mode and [data].  Whether [diag] then returns is
    up to the host. *)
Theorem diag_publishes_after_try line cell command w :
  match snd (diag_try (cell ++ [10%N]) command (fst (diag_prelude w))) with
  | Raise e =>
      snd (diag line cell command w) = Raise e /\
      published (fst (diag line cell command w)) = published w
  | Ret data =>
      published (fst (diag line cell command w)) =
        published w ++ [display_call (_publish_mode w) data]
  end.
Proof.
  destruct (snd (diag_try _ command (fst (diag_prelude w)))) as [data|e] eqn:Htry.
  - pose proof (diag_prelude_returns w) as Hret.
    destruct (diag_prelude_frame w) as [Hpm Hpub].
    pose proof (preserves_diag_try (fun w => (_publish_mode w, published w))
                  (cell ++ [10%N]) command ltac:(done)
                  ltac:(intros argv; by apply preserves_command_main)
                  ltac:(intros f; by apply preserves_svg2png)
                  (fst (diag_prelude w))) as Hp.
    assert (Heq : diag line cell command w =
              diag_publish data
                (fst (diag_try (cell ++ [10%N]) command (fst (diag_prelude w))))).
    { unfold diag, bind. destruct (diag_prelude w) as [wp r]. simpl in *.
      subst r. destruct (diag_try _ command wp) as [w3 r]. simpl in *.
      by subst r. }
    rewrite Heq, published_diag_publish. simpl in Hp.
    injection Hp as Hp1 Hp2. congruence.
  - destruct (diag_failure_publishes_nothing line cell command w e Htry)
      as [-> Hpub]. by split.
Qed.

(** ** The error paths of [diag] *)

(** When no scratch directory can be created, the [finally] clause reads
    [tmpdir] before it was ever assigned. *)
Lemma diag_without_scratch_directory line cell command w w1 e :
  mkdtemp (tmp_dir_names (fst (diag_prelude w))) (fst (diag_prelude w))
    = (w1, Raise e) ->
  diag line cell command w =
    (fst (diag_prelude w), Raise (UnboundLocalError "tmpdir")).
Proof.
  intros Hmk. rewrite diag_unfold. cbv zeta. rewrite Hmk.
  by rewrite (mkdtemp_raise _ _ _ _ Hmk).
Qed.

(** The frame of a render up to the end of the [try] body. *)
Lemma diag_scratch_frame w w1 tmpdir wa diag_name :
  mkdtemp (tmp_dir_names w) w = (w1, Ret tmpdir) ->
  mkstemp (tmp_file_names w1) tmpdir w1 = (wa, Ret diag_name) ->
  render_view wa = render_view w.
Proof.
  intros Hmkd Hmks.
  pose proof (preserves_mkdtemp render_view (tmp_dir_names w)
                render_view_fs_blind w) as H1.
  rewrite Hmkd in H1. simpl in H1.
  apply mkstemp_keeps_dir in Hmks as (_ & _ & ->). exact H1.
Qed.




(** X12: a render that produces no output file fails at line 126.  If the
    scratch files could be created, the renderer returns without writing
    anything and no child changes a file, then [diag] is left by the
    [IOError] for the file named after the publish mode, whether or not the
    converter was tried. *)
Theorem diag_missing_output line cell command w w1 tmpdir wa diag_name :
  mkdtemp (tmp_dir_names (fst (diag_prelude w))) (fst (diag_prelude w))
    = (w1, Ret tmpdir) ->
  mkstemp (tmp_file_names w1) tmpdir w1 = (wa, Ret diag_name) ->
  (forall wb argv, main command wb argv = (fs wb, None)) ->
  (forall wb args rc fs', child wb args = Exited rc fs' -> fs' = fs wb) ->
  snd (diag line cell command w) =
    Raise (IOError ("No such file or directory: " +:+
                    path_str (output_file diag_name w))).
Proof.
  intros Hmkd Hmks Hmain Hchild.
  destruct (scratch_directory_content _ _ _ _ _
              (encode_utf8 cell +:+ nl) Hmkd Hmks) as [Hdir Hcontent].
  pose proof (diag_scratch_frame _ _ _ _ _ Hmkd Hmks) as Hview.
  apply render_view_eq in Hview as (_ & _ & Hp & _).
  destruct (diag_prelude_frame w) as [Hpm _].
  destruct (mkdtemp_spec _ _ _ _ Hmkd) as (_ & _ & Hsubp).
  set (wb := fst (write_fd diag_name (encode_utf8 cell +:+ nl) wa)) in *.
  assert (Hsubb : subdirs tmpdir (fs wb) = []).
  { apply (subdirs_nil_other_dirs tmpdir (fs (fst (diag_prelude w))));
      [|done].
    intros k Hk. by apply (scratch_other_dirs _ _ _ _ _ _ _ Hmkd Hmks). }
  assert (Hbody : exists w2,
            diag_body tmpdir (cell ++ [10%N]) command w1 =
              (w2, Raise (IOError ("No such file or directory: " +:+
                                   path_str (output_file diag_name w)))) /\
            fs w2 = fs wb).
  { rewrite (diag_body_unfold _ _ _ _ _ _ Hmks). fold wb.
    unfold bind at 1. rewrite command_main_spec, Hmain. simpl.
    set (wc := emit _ _ _).
    assert (Hsvg : forall (b : bool), exists wd,
              (if b then svg2png diag_name else ret tt) wc = (wd, Ret tt) /\
              fs wd = fs wb /\ _publish_mode wd = _publish_mode wa).
    { intros [|]; [|by eexists]. rewrite svg2png_spec.
      destruct (child _ _) as [rc fs'|strerror] eqn:Hc.
      - apply Hchild in Hc. subst fs'. by eexists.
      - by eexists. }
    unfold diag_after_render, bind, get.
    destruct (Hsvg (wants_conversion wc)) as (wd & -> & Hfs & Hpd).
    exists wd. rewrite read_file_missing.
    - unfold output_file. by rewrite Hpd, Hp, Hpm.
    - unfold lookup_file, output_file, path_add. simpl.
      rewrite Hdir, Hfs, Hcontent.
      apply lookup_singleton_ne. intros Heq. symmetry in Heq.
      apply append_eq_self in Heq. discriminate. }
  destruct Hbody as (w2 & Hbody & Hfs2).
  rewrite diag_unfold. cbv zeta. rewrite Hmkd, Hbody.
  destruct (diag_cleanup_spec tmpdir w2) as [Hret _].
  { rewrite Hfs2, Hcontent. by eexists. }
  { by rewrite Hfs2. }
  destruct (diag_cleanup tmpdir w2) as [w3 r]. simpl in *. by subst r.
Qed.

(** ** The file system after a render *)



End BlockdiagMagics.

(** * The properties on a concrete process *)

(** C1, counterexample: on a machine with inkscape, the first [diag] of a
    process changes the draw-mode flag from ['PNG'] to ['SVG']. *)
Lemma diag_changes_draw_mode :
  let w0 := initial_world ∅ in
  let w' := fst (diag "posix" id inkscape_present demo_tmp_dirs demo_tmp_files
                   [] demo_cell demo_renderer w0) in
  _draw_mode w0 = "PNG" /\ _draw_mode w' = "SVG" /\ _draw_mode w' <> _draw_mode w0.
Proof. vm_compute. repeat split; discriminate. Qed.

(** C2, the failing input: a probe that is started and exits with return
    code 1.  [inkscape_available] answers true and caches true. *)
Lemma probe_exit_code_is_ignored :
  let r := inkscape_available "posix" id inkscape_failing (initial_world ∅) in
  inkscape_failing (initial_world ∅) probe_args = Exited 1 ∅ /\
  snd r = Ret true /\
  _inkscape_available (fst r) = Some true.
Proof. vm_compute. by repeat split. Qed.



(** C6, counterexample: with no inkscape on the path the diagnostic line
    goes to standard output and standard error stays empty; and a child that
    exits with return code 1 makes [run_command] return true. *)
Lemma run_command_diagnostic_on_stdout :
  let w0 := initial_world ∅ in
  let missing := run_command "posix" id inkscape_missing probe_args w0 in
  let failing := run_command "posix" id inkscape_failing probe_args w0 in
  sys_stderr (fst missing) = sys_stderr w0 /\
  sys_stdout (fst missing) <> sys_stdout w0 /\
  sys_stdout (fst missing) =
    ["Exception [Errno 2] No such file or directory"] /\
  snd failing = Ret true /\
  sys_stderr (fst failing) = sys_stderr w0.
Proof. vm_compute. by repeat split. Qed.

(** C6, witness of the amended claim. *)
Lemma run_command_missing_executable_witness :
  let w0 := initial_world ∅ in
  let r := run_command "posix" id inkscape_missing probe_args w0 in
  snd r = Ret false /\
  sys_stdout (fst r) =
    sys_stdout w0 ++ ["Exception " +:+ "[Errno 2] No such file or directory"] /\
  sys_stderr (fst r) = sys_stderr w0.
Proof.
  exact (run_command_missing_executable "posix" id inkscape_missing probe_args
           (initial_world ∅) "[Errno 2] No such file or directory" eq_refl).
Defined.

(** C7, the failing input: a render in publish mode ['SVG'] (after
    [%setdiagsvg]) that succeeds.  The host is called with the source string
    in the first position and the dict in the third, where the render in
    publish mode ['PNG'] passes the dict first: the first argument of the
    SVG call is not a mapping from MIME type to bytes. *)
Lemma diag_svg_publishes_source_first :
  let svg := fst (setdiagsvg [] None (initial_world ∅)) in
  let run := blockdiag "posix" id inkscape_missing demo_tmp_dirs demo_tmp_files
               (Ret demo_renderer) [] demo_cell in
  snd (run svg) = Ret tt /\
  published (fst (run svg)) =
    [(PyUnicode "IPython.core.displaypub.publish_svg", PyNone,
      PyDict [("image/svg+xml", "image")])] /\
  snd (run (initial_world ∅)) = Ret tt /\
  published (fst (run (initial_world ∅))) =
    [(PyDict [("image/png", "image")], PyNone,
      PyUnicode "IPython.core.displaypub.publish_png")] /\
  (forall a b c, In (a, b, c) (published (fst (run svg))) ->
                 is_mapping a = false).
Proof.
  vm_compute. repeat split; try reflexivity.
  intros a b c [[= <- _ _]|[]]. reflexivity.
Qed.

(** An empty cell: [diag] writes the one-byte file and runs the renderer;
    when the renderer produces nothing, the [IOError] of line 126 leaves the
    magic, after the [finally] clause has run. *)
Lemma empty_cell_failure_leaves_magic :
  let d := seqdiag "posix" id inkscape_missing demo_tmp_dirs demo_tmp_files
             (Ret silent_renderer) [] [] (initial_world ∅) in
  encode_utf8 ([] ++ [10%N]) = nl /\
  snd d = Raise (IOError
                   "No such file or directory: /tmp/tmpAAAAAA/tmpBBBBBB.png") /\
  fs (fst d) = ∅.
Proof. vm_compute. by repeat split. Qed.

(** * The further properties on a concrete process *)

(** X7, witness: inkscape was found missing; a toggle and a render later
    the answer is still false and is returned without a probe. *)
Lemma probe_answer_is_final_witness :
  let w := set_inkscape_available (Some false) (initial_world ∅) in
  let w' := run_all "posix" id inkscape_present demo_tmp_dirs demo_tmp_files
              (Ret demo_renderer) (Ret demo_renderer) (Ret demo_renderer)
              (Ret demo_renderer)
              [Setdiagsvg [] None; Blockdiag [] demo_cell] w in
  _inkscape_available w' = Some false /\
  inkscape_available "posix" id inkscape_present w' = (w', Ret false).
Proof.
  exact (probe_answer_is_final "posix" id inkscape_present demo_tmp_dirs
           demo_tmp_files (Ret demo_renderer) (Ret demo_renderer)
           (Ret demo_renderer) (Ret demo_renderer)
           [Setdiagsvg [] None; Blockdiag [] demo_cell]
           (set_inkscape_available (Some false) (initial_world ∅)) false
           eq_refl).
Defined.

(** X8, witness: inkscape known to be missing, both modes ['PNG']. *)
Lemma diag_starts_no_child_witness :
  let w := set_inkscape_available (Some false) (initial_world ∅) in
  calls (fst (diag "posix" id inkscape_present demo_tmp_dirs demo_tmp_files
                [] demo_cell demo_renderer w)) = calls w.
Proof.
  exact (diag_starts_no_child "posix" id inkscape_present demo_tmp_dirs
           demo_tmp_files [] demo_cell demo_renderer
           (set_inkscape_available (Some false) (initial_world ∅)) false
           eq_refl (or_intror (conj eq_refl eq_refl))).
Defined.


(** X12, witness: an inkscape that starts, exits with 1 and writes nothing;
    the probe counts it as available, the conversion is tried, and the
    render fails on the missing PNG. *)
Lemma diag_missing_output_witness :
  snd (diag "posix" id inkscape_failing demo_tmp_dirs demo_tmp_files
         [] demo_cell silent_renderer (initial_world ∅)) =
  Raise (IOError
           ("No such file or directory: " +:+
            path_str (output_file
                        {| path_dir := "/tmp/tmpAAAAAA";
                           path_base := "tmpBBBBBB" |}
                        (initial_world ∅)))).
Proof.
  set (wp := fst (diag_prelude "posix" id inkscape_failing (initial_world ∅))).
  set (w1 := fst (mkdtemp (demo_tmp_dirs wp) wp)).
  refine (diag_missing_output "posix" id inkscape_failing demo_tmp_dirs
            demo_tmp_files [] demo_cell silent_renderer (initial_world ∅)
            w1 "/tmp/tmpAAAAAA"
            (fst (mkstemp (demo_tmp_files w1) "/tmp/tmpAAAAAA" w1))
            {| path_dir := "/tmp/tmpAAAAAA"; path_base := "tmpBBBBBB" |}
            _ _ _ _).
  - by vm_compute.
  - by vm_compute.
  - intros wb argv. reflexivity.
  - intros wb args rc fs' [= _ <-]. reflexivity.
Defined.



(** X2, witness: the probe on a machine without inkscape. *)
Lemma run_command_behaviour_witness :
  let r := run_command "posix" id inkscape_missing probe_args (initial_world ∅) in
  snd r = Ret false /\
  sys_stderr (fst r) = [] /\
  calls (fst r) = [(probe_args, None)].
Proof.
  destruct (run_command_behaviour "posix" id inkscape_missing probe_args
              (initial_world ∅) (or_introl eq_refl))
    as ((b & Hb & Hiff) & Herr & Hcalls & _).
  split; [|split; [exact Herr | exact Hcalls]].
  destruct b; [|exact Hb].
  destruct (proj1 Hiff eq_refl) as (rc & fs' & Hstarted). discriminate Hstarted.
Defined.

(** X4, witness: renderers that print nothing; registration, a render, a
    toggle and another render. *)
Lemma never_prints_on_stderr_witness :
  sys_stderr
    (run_all "posix" id inkscape_missing demo_tmp_dirs demo_tmp_files
       (Ret demo_renderer) (Ret silent_renderer) (Ret demo_renderer)
       (Ret picky_renderer)
       [Load; Blockdiag [] demo_cell; Setdiagsvg [] None; Seqdiag [] demo_cell]
       (initial_world ∅)) = sys_stderr (initial_world ∅).
Proof.
  refine (never_prints_on_stderr "posix" id inkscape_missing demo_tmp_dirs
            demo_tmp_files (Ret demo_renderer) (Ret silent_renderer)
            (Ret demo_renderer) (Ret picky_renderer) _ (initial_world ∅) _).
  intros c [H|[H|[H|[H|[]]]]]; injection H as <-; intros wb argv; reflexivity.
Defined.

